(** * The NewPipe web API handler ([api.py]): a shallow embedding

    [api.py] is a single Tornado request handler, [DataJsonHandler], that
    serves one JSON document assembled from five upstream sources and
    caches it in class attributes.  This development embeds

    - the Python values and the string operations the handler uses,
    - the part of Tornado the handler calls (the response side of
      [RequestHandler], [Lock], [AsyncHTTPClient.fetch]),
    - the handler itself, as a program over the effects it performs
      (clock reads, class attributes, the lock, upstream fetches),

    and states the properties of the cache gate and of the refresh. *)

From Stdlib Require Import ZArith List String Ascii Bool Lia.
Import ListNotations.

Set Warnings "-register-all".

Local Open Scope string_scope.
Local Open Scope Z_scope.

(** ** Python values *)

(** The exceptions the embedded code can raise.  [HTTPClientError] is
    the client's error for a status outside 200..299; [TransportError]
    stands for what the client raises when no response arrives
    ([ConnectionRefusedError], [socket.gaierror], [HTTPTimeoutError] and
    the like). *)
Inductive exn : Set :=
| TypeError
| ValueError
| IndexError
| KeyError
| JSONDecodeError
| ParserError
| UnicodeDecodeError
| RuntimeError
| HTTPClientError
| TransportError.

(** A Python expression either yields a value or raises. *)
Inductive result (A : Type) : Type :=
| Return (a : A)
| Except (e : exn).
Arguments Return {A} a.
Arguments Except {A} e.

Definition rbind {A B} (r : result A) (f : A -> result B) : result B :=
  match r with
  | Return a => f a
  | Except e => Except e
  end.

Declare Scope result_scope.
Delimit Scope result_scope with result.
Notation "x <-- r ;;; k" := (rbind r (fun x => k))
  (at level 61, r at next level, right associativity) : result_scope.

(** The Python objects that flow through the handler: what [json.loads]
    returns, the scraped fields, and the assembled document.  (JSON
    numbers with a fraction or an exponent are not represented.) *)
Inductive value : Type :=
| VNone
| VBool (b : bool)
| VInt (z : Z)
| VStr (s : string)
| VList (l : list value)
| VDict (d : list (string * value)).

Fixpoint assoc {A} (k : string) (d : list (string * A)) : option A :=
  match d with
  | [] => None
  | (k', v) :: d' => if String.eqb k k' then Some v else assoc k d'
  end.

(** [v[k]] for a string key [k]. *)
Definition getitem (v : value) (k : string) : result value :=
  match v with
  | VDict d =>
      match assoc k d with
      | Some x => Return x
      | None => Except KeyError
      end
  | _ => Except TypeError
  end.

(** Nested lookup, used to read a field of the served document. *)
Fixpoint lookup_path (path : list string) (v : value) : option value :=
  match path with
  | [] => Some v
  | k :: path' =>
      match v with
      | VDict d =>
          match assoc k d with
          | Some x => lookup_path path' x
          | None => None
          end
      | _ => None
      end
  end.

(** [l[0]] and [l[-1]]. *)
Definition first_item {A} (l : list A) : result A :=
  match l with
  | [] => Except IndexError
  | x :: _ => Return x
  end.

Fixpoint last_item {A} (l : list A) : result A :=
  match l with
  | [] => Except IndexError
  | [x] => Return x
  | _ :: l' => last_item l'
  end.

(** ** Strings: [re.findall], [str.split], [int] *)

Definition newline : ascii := "010"%char.

Fixpoint until_newline (s : string) : string :=
  match s with
  | EmptyString => EmptyString
  | String c r =>
      if Ascii.eqb c newline then EmptyString else String c (until_newline r)
  end.

Fixpoint drop (n : nat) (s : string) : string :=
  match n, s with
  | O, _ => s
  | S n', String _ r => drop n' r
  | S _, EmptyString => EmptyString
  end.

(** [re.findall] for a pattern made of a literal, non-empty [lit]
    followed by one group that takes the rest of the line: the text that
    follows each occurrence of [lit] up to the end of its line (the dot
    does not match a newline); the scan resumes after the capture.
    [skip] counts the characters of the current match still to pass. *)
Fixpoint findall_from (lit s : string) (skip : nat) : list string :=
  match s with
  | EmptyString => []
  | String _ r =>
      match skip with
      | S n => findall_from lit r n
      | O =>
          if String.prefix lit s then
            let cap := until_newline (drop (String.length lit) s) in
            cap :: findall_from lit r (String.length lit + String.length cap - 1)
          else findall_from lit r 0
      end
  end.

Definition findall_rest (lit s : string) : list string := findall_from lit s 0.

(** [s.split(sep)] for a one-character separator: never empty. *)
Fixpoint split_on (sep : ascii) (s : string) : list string :=
  match s with
  | EmptyString => [EmptyString]
  | String c r =>
      if Ascii.eqb c sep then EmptyString :: split_on sep r
      else match split_on sep r with
           | h :: t => String c h :: t
           | [] => [String c EmptyString]
           end
  end.

(** Text is a string of characters below 256.  The blanks that
    [int(str)] strips: the C blanks 9..13 and 32, and the two blanks
    above 127, U+0085 and U+00A0, which the conversion of a [str] first
    turns into a space.  The separators 28..31 are not among them
    ([str.isspace] accepts them, [int] does not). *)
Definition is_space (c : ascii) : bool :=
  let n := nat_of_ascii c in
  (((9 <=? n) && (n <=? 13)) || (n =? 32) || (n =? 133) || (n =? 160))%nat.

Fixpoint lstrip (s : string) : string :=
  match s with
  | String c r => if is_space c then lstrip r else s
  | EmptyString => EmptyString
  end.

Fixpoint rstrip (s : string) : string :=
  match s with
  | EmptyString => EmptyString
  | String c r =>
      match rstrip r with
      | EmptyString => if is_space c then EmptyString else String c EmptyString
      | r' => String c r'
      end
  end.

Definition digit_of (c : ascii) : option Z :=
  let n := nat_of_ascii c in
  if ((48 <=? n) && (n <=? 57))%nat then Some (Z.of_nat n - 48) else None.

(** Decimal digits, with single underscores allowed between digits. *)
Fixpoint digits_val (s : string) (acc : Z) (after_digit : bool) : option Z :=
  match s with
  | EmptyString => if after_digit then Some acc else None
  | String c r =>
      match digit_of c with
      | Some d => digits_val r (10 * acc + d) true
      | None =>
          if Ascii.eqb c "_"%char && after_digit then digits_val r acc false
          else None
      end
  end.

Fixpoint count_digits (s : string) : nat :=
  match s with
  | EmptyString => O
  | String c r =>
      match digit_of c with
      | Some _ => S (count_digits r)
      | None => count_digits r
      end
  end.

(** [sys.int_info.default_max_str_digits]: a decimal literal with more
    digits than this is refused. *)
Definition max_str_digits : nat := 4300.

(** [int(s)]: blanks around the literal are stripped, then comes an
    optional sign and the digits; anything else is a [ValueError], and
    so is a literal of more than [max_str_digits] digits (leading zeros
    count, underscores do not). *)
Definition int_of_str (s : string) : result Z :=
  let body := rstrip (lstrip s) in
  let signed :=
    match body with
    | String "-"%char r => option_map Z.opp (digits_val r 0 false)
    | String "+"%char r => digits_val r 0 false
    | _ => digits_val body 0 false
    end in
  match signed with
  | Some z =>
      if (max_str_digits <? count_digits body)%nat then Except ValueError
      else Return z
  | None => Except ValueError
  end.

(** [int(v)]. *)
Definition py_int (v : value) : result Z :=
  match v with
  | VInt z => Return z
  | VBool b => Return (if b then 1 else 0)
  | VStr s => int_of_str s
  | _ => Except TypeError
  end.

(** ** Tornado, as far as the handler uses it *)

(** *** [tornado.locks.Lock]

    A [Lock] is a bounded semaphore of initial value 1 with a queue of
    waiters (here: the numbers of the suspended requests).  [acquire]
    takes the lock when it is free and queues the caller otherwise;
    [release] hands the lock to the first waiter, when there is one, and
    raises on a lock that is not held. *)
Record Lock : Type := mkLock {
  _value : Z;
  _waiters : list nat
}.

Definition new_lock : Lock := {| _value := 1; _waiters := [] |}.

Definition lock_acquire (who : nat) (l : Lock) : bool * Lock :=
  if 0 <? _value l
  then (true, {| _value := _value l - 1; _waiters := _waiters l |})
  else (false, {| _value := _value l; _waiters := (_waiters l ++ [who])%list |}).

Definition lock_release (l : Lock) : result (Lock * option nat) :=
  if 1 <=? _value l then Except RuntimeError
  else match _waiters l with
       | [] => Return ({| _value := _value l + 1; _waiters := [] |}, None)
       | w :: ws => Return ({| _value := _value l; _waiters := ws |}, Some w)
       end.

(** *** [tornado.httpclient] *)

Record HTTPRequest : Type := mkHTTPRequest {
  url : string;
  headers : list (string * string);
  method : string
}.

(** [HTTPRequest(url, **kwargs)]: the method defaults to GET. *)
Definition new_HTTPRequest (u : string) (hs : list (string * string)) : HTTPRequest :=
  {| url := u; headers := hs; method := "GET" |}.

Record HTTPError : Type := mkHTTPError {
  err_code : Z;
  err_message : string
}.

Record HTTPResponse : Type := mkHTTPResponse {
  request : HTTPRequest;
  code : Z;
  body : option string;
  error : option HTTPError;
  _error_is_response_code : bool;
  effective_url : string
}.

(** What the network does with one request: a server answers with a
    status code, a reason phrase and a body, or the transport fails
    (DNS, connection refused, timeout).  The client follows redirects:
    an answer is the one it ends with, and [landed] is the URL that
    answer came from when it is not the URL of the request.  [reason] is
    the phrase as the response object holds it, that is the standard
    phrase of the status when the server sent none. *)
Inductive wire : Type :=
| Answered (status : Z) (reason : string) (content : string)
    (landed : option string)
| Failed (detail : string).

(** The response object the client builds.  A status outside 200..299
    makes the response carry an [HTTPError] with that status and the
    reason phrase, and marks the error as one of the response code.  A
    transport failure gives a response with the pseudo status 599, the
    failure as its error and no body.  [effective_url] is the URL the
    answer came from. *)
Definition response_of (req : HTTPRequest) (w : wire) : HTTPResponse :=
  match w with
  | Answered c r b l =>
      {| request := req; code := c; body := Some b;
         error := if (c <? 200) || (300 <=? c)
                  then Some {| err_code := c; err_message := r |}
                  else None;
         _error_is_response_code := (c <? 200) || (300 <=? c);
         effective_url := match l with Some u => u | None => url req end |}
  | Failed d =>
      {| request := req; code := 599; body := None;
         error := Some {| err_code := 599; err_message := d |};
         _error_is_response_code := false;
         effective_url := url req |}
  end.

(** [AsyncHTTPClient.fetch(request, raise_error=...)] (Tornado 6): a
    response without error is returned; an error is raised when
    [raise_error] is set or when it is not an error of the response
    code.  So [raise_error=False] keeps the client from raising on a
    status outside 200..299 only: a transport failure is raised all the
    same. *)
Definition client_fetch (req : HTTPRequest) (raise_error : bool) (w : wire)
  : result HTTPResponse :=
  let response := response_of req w in
  match error response with
  | Some _ =>
      if raise_error || negb (_error_is_response_code response)
      then Except (if _error_is_response_code response
                   then HTTPClientError else TransportError)
      else Return response
  | None => Return response
  end.

(** *** The response side of [tornado.web.RequestHandler] *)

Inductive chunk : Type :=
| Json (v : value)      (* a dict, sent JSON-encoded *)
| Text (s : string).

Record Handler : Type := mkHandler {
  _status_code : Z;
  _reason : string;
  _headers : list (string * string);
  _write_buffer : list chunk;
  _finished : bool
}.

Definition reason_of (status : Z) : string :=
  if status =? 200 then "OK"
  else if status =? 500 then "Internal Server Error"
  else "Unknown".

(** [clear()]: status 200 and the default headers (the [Server] and
    [Date] headers are left out), nothing written. *)
Definition clear (h : Handler) : Handler :=
  {| _status_code := 200; _reason := reason_of 200;
     _headers := [("Content-Type", "text/html; charset=UTF-8")];
     _write_buffer := [];
     _finished := _finished h |}.

(** A handler as Tornado creates it for a new request. *)
Definition new_handler : Handler :=
  {| _status_code := 200; _reason := reason_of 200;
     _headers := [("Content-Type", "text/html; charset=UTF-8")];
     _write_buffer := [];
     _finished := false |}.

Definition set_status (status : Z) (h : Handler) : Handler :=
  {| _status_code := status; _reason := reason_of status;
     _headers := _headers h; _write_buffer := _write_buffer h;
     _finished := _finished h |}.

(** [add_header] keeps the values the header already has. *)
Definition add_header (name v : string) (h : Handler) : Handler :=
  {| _status_code := _status_code h; _reason := _reason h;
     _headers := (_headers h ++ [(name, v)])%list;
     _write_buffer := _write_buffer h; _finished := _finished h |}.

(** [set_header] replaces them. *)
Definition set_header (name v : string) (h : Handler) : Handler :=
  {| _status_code := _status_code h; _reason := _reason h;
     _headers :=
       (filter (fun nv => negb (String.eqb (fst nv) name)) (_headers h)
        ++ [(name, v)])%list;
     _write_buffer := _write_buffer h; _finished := _finished h |}.

Definition append_chunk (c : chunk) (h : Handler) : Handler :=
  {| _status_code := _status_code h; _reason := _reason h;
     _headers := _headers h;
     _write_buffer := (_write_buffer h ++ [c])%list; _finished := _finished h |}.

(** [write(chunk)]: bytes, text and dicts only; a dict is JSON-encoded
    and sets the content type of the response. *)
Definition write (v : value) (h : Handler) : result Handler :=
  if _finished h then Except RuntimeError
  else match v with
       | VDict _ =>
           Return (append_chunk (Json v)
                     (set_header "Content-Type" "application/json; charset=UTF-8" h))
       | VStr s => Return (append_chunk (Text s) h)
       | _ => Except TypeError
       end.

(** [finish(chunk=None)]: the chunk is written and the response is
    closed.  The handler state is the response as the handler wrote it.
    What Tornado does to it on the way out is not represented: it adds
    the [Etag] and [Content-Length] headers, and it answers with status
    304 and no body when the entity tag of a response of status 200
    matches the [If-None-Match] header of the request (requests are
    taken to carry no such header). *)
Definition finish (c : option value) (h : Handler) : result Handler :=
  if _finished h then Except RuntimeError
  else
    (h1 <-- match c with Some v => write v h | None => Return h end ;;;
     Return {| _status_code := _status_code h1; _reason := _reason h1;
               _headers := _headers h1; _write_buffer := _write_buffer h1;
               _finished := true |})%result.

Definition decimal (z : Z) : string :=
  if z =? 500 then "500" else if z =? 200 then "200" else "?".

Definition error_page (status : Z) (reason : string) : string :=
  "<html><title>" ++ decimal status ++ ": " ++ reason ++ "</title>"
  ++ "<body>" ++ decimal status ++ ": " ++ reason ++ "</body></html>".

(** [write_error(status_code)]: writes the error page and finishes; it
    leaves the status of the response as it is. *)
Definition write_error (status : Z) (h : Handler) : result Handler :=
  finish (Some (VStr (error_page status (_reason h)))) h.

(** [send_error(status_code)]: once the response has gone out nothing is
    sent; otherwise the response is cleared, its status is set, and the
    error page is written. *)
Definition send_error (status : Z) (h : Handler) : result Handler :=
  if _finished h then Return h
  else write_error status (set_status status (clear h)).

(** ** The effects of the handler *)

(** [timedelta(hours=1)], in microseconds: a [datetime] is the number of
    microseconds since some epoch. *)
Definition _timeout : Z := 3600 * 1000000.

(** The class attributes of [DataJsonHandler]. *)
Record Cls : Type := mkCls {
  _last_request : Z;
  _cached_response : option value;
  _lock : Lock;
  _last_failed_request : option Z
}.

Definition set_last_request (t : Z) (c : Cls) : Cls :=
  {| _last_request := t; _cached_response := _cached_response c;
     _lock := _lock c; _last_failed_request := _last_failed_request c |}.

Definition set_cached_response (d : option value) (c : Cls) : Cls :=
  {| _last_request := _last_request c; _cached_response := d;
     _lock := _lock c; _last_failed_request := _last_failed_request c |}.

Definition set_last_failed_request (t : option Z) (c : Cls) : Cls :=
  {| _last_request := _last_request c; _cached_response := _cached_response c;
     _lock := _lock c; _last_failed_request := t |}.

Definition set_lock (l : Lock) (c : Cls) : Cls :=
  {| _last_request := _last_request c; _cached_response := _cached_response c;
     _lock := l; _last_failed_request := _last_failed_request c |}.

(** The class body runs once, when the module is loaded: it reads the
    clock twice. *)
Definition class_body (t0 t1 : Z) : Cls :=
  {| _last_request := t0 - 2 * _timeout;
     _cached_response := None;
     _lock := new_lock;
     _last_failed_request := Some (t1 - 2 * _timeout) |}.

Inductive level : Set := INFO | ERROR.

Inductive logrec : Type :=
| LogText (lvl : level) (msg : string)
| LogApiError (lvl : level) (effective : string) (err : HTTPError)
    (content : option string).

(** One call of the local function [fetch]: the request and the
    [raise_error] argument handed to the client. *)
Record FetchCall : Type := mkFetchCall {
  fc_request : HTTPRequest;
  fc_raise_error : bool
}.

(** A method of the handler, as the tree of the effects it performs.
    [LockAcquire] and [GenMulti] are the points where the coroutine
    yields; everything between two of them runs without interruption. *)
Inductive prog (A : Type) : Type :=
| Ret (a : A)
| Raise (e : exn)
| DatetimeNow (k : Z -> prog A)
| ReadCls (k : Cls -> prog A)
| WriteCls (f : Cls -> Cls) (k : prog A)
| Self (f : Handler -> result Handler) (k : result unit -> prog A)
| Logger (r : logrec) (k : prog A)
| LockAcquire (k : prog A)
| LockRelease (k : result unit -> prog A)
| GenMulti (calls : list FetchCall) (k : result (list HTTPResponse) -> prog A).
Arguments Ret {A} a.
Arguments Raise {A} e.
Arguments DatetimeNow {A} k.
Arguments ReadCls {A} k.
Arguments WriteCls {A} f k.
Arguments Self {A} f k.
Arguments Logger {A} r k.
Arguments LockAcquire {A} k.
Arguments LockRelease {A} k.
Arguments GenMulti {A} calls k.

Fixpoint bind {A B} (p : prog A) (f : A -> prog B) : prog B :=
  match p with
  | Ret a => f a
  | Raise e => Raise e
  | DatetimeNow k => DatetimeNow (fun t => bind (k t) f)
  | ReadCls k => ReadCls (fun c => bind (k c) f)
  | WriteCls g k => WriteCls g (bind k f)
  | Self g k => Self g (fun r => bind (k r) f)
  | Logger r k => Logger r (bind k f)
  | LockAcquire k => LockAcquire (bind k f)
  | LockRelease k => LockRelease (fun r => bind (k r) f)
  | GenMulti calls k => GenMulti calls (fun r => bind (k r) f)
  end.

(** [try: p except: h]. *)
Fixpoint try_with {A} (p : prog A) (h : exn -> prog A) : prog A :=
  match p with
  | Ret a => Ret a
  | Raise e => h e
  | DatetimeNow k => DatetimeNow (fun t => try_with (k t) h)
  | ReadCls k => ReadCls (fun c => try_with (k c) h)
  | WriteCls g k => WriteCls g (try_with k h)
  | Self g k => Self g (fun r => try_with (k r) h)
  | Logger r k => Logger r (try_with k h)
  | LockAcquire k => LockAcquire (try_with k h)
  | LockRelease k => LockRelease (fun r => try_with (k r) h)
  | GenMulti calls k => GenMulti calls (fun r => try_with (k r) h)
  end.

Definition try_except {A} (p h : prog A) : prog A := try_with p (fun _ => h).

Declare Scope prog_scope.
Delimit Scope prog_scope with prog.
Notation "x <- p ;; k" := (bind p (fun x => k))
  (at level 61, p at next level, right associativity) : prog_scope.
Notation "p ;; k" := (bind p (fun _ => k))
  (at level 61, right associativity) : prog_scope.
Local Open Scope prog_scope.

Definition lift {A} (r : result A) : prog A :=
  match r with
  | Return a => Ret a
  | Except e => Raise e
  end.

Definition datetime_now : prog Z := DatetimeNow Ret.
Definition read_cls : prog Cls := ReadCls Ret.
Definition write_cls (f : Cls -> Cls) : prog unit := WriteCls f (Ret tt).
Definition self_call (f : Handler -> result Handler) : prog unit := Self f lift.
Definition logger_log (r : logrec) : prog unit := Logger r (Ret tt).
Definition lock_acquire_yield : prog unit := LockAcquire (Ret tt).
Definition lock_release_call : prog unit := LockRelease lift.
Definition gen_multi (calls : list FetchCall) : prog (list HTTPResponse) :=
  GenMulti calls lift.

(** ** [DataJsonHandler] *)

(** What a CSS selection returns of an element: its text and its [href]
    attribute, each of which may be missing. *)
Record Tag : Type := mkTag {
  text : option string;
  href : option string
}.

Definition catch {A} (r : result A) (d : A) : A :=
  match r with
  | Return a => a
  | Except _ => d
  end.

(** [a + b] where [b] may be [None]. *)
Definition str_add (a : string) (b : option string) : result string :=
  match b with
  | Some s => Return (a ++ s)%string
  | None => Except TypeError
  end.

Definition py_of_option (o : option value) : value :=
  match o with
  | Some v => v
  | None => VNone
  end.

Definition py_of_text (o : option string) : value :=
  match o with
  | Some s => VStr s
  | None => VNone
  end.

Definition releases_url_template (name : string) : string :=
  "https://gitlab.com/fdroid/fdroiddata/raw/master/metadata/" ++ name ++ ".txt".
Definition stable_url : string := releases_url_template "org.schabi.newpipe".
Definition repo_url : string := "https://api.github.com/repos/TeamNewPipe/NewPipe".
Definition release_github_url : string :=
  "https://github.com/TeamNewPipe/NewPipe/releases/".
Definition contributors_url : string := "https://github.com/TeamNewPipe/NewPipe".
Definition translations_url : string :=
  "https://hosted.weblate.org/api/components/" ++ "newpipe/strings/translations/".

(** The selectors handed to [cssselect] (the first one written with
    single quotes around its attribute value). *)
Definition sel_apk : string :=
  ".release-main-section li.d-block a[href$='.apk']".
Definition sel_version : string :=
  ".release .float-left ul li a.css-truncate > span.css-truncate-target".
Definition sel_hash : string := ".release .float-left ul li a code".
Definition sel_contributors : string :=
  ".numbers-summary a[href$=contributors] .num".

Definition make_request (u : string) : HTTPRequest :=
  new_HTTPRequest u [("User-Agent", "")].

Definition fetch (req : HTTPRequest) : FetchCall :=
  {| fc_request := req; fc_raise_error := false |}.

Definition core_requests : list HTTPRequest :=
  [ make_request repo_url;
    make_request stable_url;
    make_request release_github_url;
    make_request contributors_url;
    make_request translations_url ].

Definition add_default_headers : prog unit :=
  self_call (fun h => Return (add_header "Content-Type" "text/plain" h)) ;;
  self_call (fun h =>
    Return (add_header "Access-Control-Allow-Origin" "newpipe.schabi.org" h)).

Definition is_request_outdated : prog bool :=
  now <- datetime_now ;;
  c <- read_cls ;;
  match _cached_response c with
  | None => Ret true
  | Some _ =>
      if _timeout <? now - _last_request c then Ret true else Ret false
  end.

Definition update_cache (data : value) : prog unit :=
  write_cls (set_cached_response (Some data)) ;;
  now <- datetime_now ;;
  write_cls (set_last_request now).

Definition validate_response (response : HTTPResponse) : prog bool :=
  match error response with
  | Some e =>
      lock_release_call ;;
      logger_log (LogApiError ERROR (effective_url response) e (body response)) ;;
      self_call (send_error 500) ;;
      Ret false
  | None => Ret true
  end.

(** The loop over the responses of the five fetches, followed by [rest]
    when every response is valid. *)
Fixpoint for_responses (responses : list HTTPResponse) (rest : prog value)
  : prog value :=
  match responses with
  | [] => rest
  | response :: responses' =>
      ok <- validate_response response ;;
      if ok then for_responses responses' rest
      else
        now <- datetime_now ;;
        write_cls (set_last_failed_request (Some now)) ;;
        Ret (VBool false)
  end.

Section Libraries.

(** The libraries the handler parses with.  [json.loads], lxml's
    [html.fromstring] and [cssselect], and [bytes.decode] are not part
    of the repository: the handler is embedded over what they return. *)
Variable Elem : Type.
Variable json_loads : string -> result value.
Variable html_fromstring : string -> result Elem.
Variable cssselect : Elem -> string -> list Tag.
Variable decode : string -> result string.

(** A body is [bytes], or [None] when the response has none. *)
Definition loads (data : option string) : result value :=
  match data with
  | Some s => json_loads s
  | None => Except TypeError
  end.

Definition fromstring (data : option string) : result Elem :=
  match data with
  | Some s => html_fromstring s
  | None => Except TypeError
  end.

(** [if isinstance(data, bytes): data = data.decode()]. *)
Definition decode_if_bytes (data : option string) : result (option string) :=
  match data with
  | Some s => (s' <-- decode s ;;; Return (Some s'))%result
  | None => Return None
  end.

Definition re_findall (lit : string) (data : option string)
  : result (list string) :=
  match data with
  | Some s => Return (findall_rest lit s)
  | None => Except TypeError
  end.

Definition assemble_release_data (version_data : option string) : result value :=
  (version_data <-- decode_if_bytes version_data ;;;
   versions <-- re_findall "commit=" version_data ;;;
   version_codes <-- re_findall "Build:" version_data ;;;
   build <-- last_item version_codes ;;;
   version_code <-- last_item (split_on ","%char build) ;;;
   version <-- last_item versions ;;;
   code <-- int_of_str version_code ;;;
   Return (VDict
     [ ("version", VStr version);
       ("version_code", VInt code);
       ("apk", VStr ("https://f-droid.org/repo/org.schabi.newpipe_"
                     ++ version_code ++ ".apk")%string) ]))%result.

Definition scrape_apk (tags : list Tag) : value :=
  match tags with
  | [] => VInt (-1)
  | t :: _ =>
      catch (s <-- str_add "https://github.com" (href t) ;;; Return (VStr s))%result
            (VInt (-1))
  end.

Definition scrape_version (tags : list Tag) : value :=
  match tags with
  | [] => VInt (-1)
  | t :: _ => py_of_text (text t)
  end.

(** The version code of the GitHub release: the commit hash of the
    release page names the [build.gradle] to fetch. *)
Definition scrape_version_code (tags : list Tag) : prog value :=
  match tags with
  | [] => Ret (VInt (-1))
  | t :: _ =>
      try_except
        (u <- lift (str_add "https://raw.githubusercontent.com/TeamNewPipe/NewPipe/"
                      (text t)) ;;
         response <- gen_multi [fetch (make_request (u ++ "/app/build.gradle"))] ;;
         gradle_file_data <- lift (first_item (map body response)) ;;
         gradle_file_data <- lift (decode_if_bytes gradle_file_data) ;;
         version_codes_g <- lift (re_findall "versionCode" gradle_file_data) ;;
         line <- lift (first_item version_codes_g) ;;
         v <- lift (last_item (split_on " "%char line)) ;;
         Ret (VStr v))
        (Ret (VInt (-1)))
  end.

Definition scrape_contributors (tags : list Tag) : Z :=
  match tags with
  | [t] => catch (py_int (py_of_text (text t))) (-1)
  | _ => -1
  end.

(** The [data] dictionary, its items evaluated in source order. *)
Definition build_data (repo translations : value) (contributors_count : Z)
    (release_github_version release_github_version_code release_github_apk : value)
    (stable_data : option string) : result value :=
  (stargazers <-- getitem repo "stargazers_count" ;;;
   watchers <-- getitem repo "subscribers_count" ;;;
   forks <-- getitem repo "forks_count" ;;;
   count <-- getitem translations "count" ;;;
   count <-- py_int count ;;;
   code <-- py_int release_github_version_code ;;;
   fdroid <-- assemble_release_data stable_data ;;;
   Return (VDict
     [ ("stats", VDict
         [ ("stargazers", stargazers);
           ("watchers", watchers);
           ("forks", forks);
           ("contributors", VInt contributors_count);
           ("translations", VInt count) ]);
       ("flavors", VDict
         [ ("github", VDict
             [ ("stable", VDict
                 [ ("version", release_github_version);
                   ("version_code", VInt code);
                   ("apk", release_github_apk) ]) ]);
           ("fdroid", VDict [ ("stable", fdroid) ]) ]) ]))%result.

(** The part of [fetch_data_and_assemble_response] after the loop. *)
Definition assemble_and_respond (bodies : list (option string)) : prog value :=
  match bodies with
  | [repo_data; stable_data; release_github_data; contributors_data;
     translations_data] =>
      repo <- lift (loads repo_data) ;;
      elem <- lift (fromstring release_github_data) ;;
      let release_github_apk := scrape_apk (cssselect elem sel_apk) in
      let release_github_version := scrape_version (cssselect elem sel_version) in
      release_github_version_code <-
        scrape_version_code (cssselect elem sel_hash) ;;
      elem <- lift (fromstring contributors_data) ;;
      let contributors_count :=
        scrape_contributors (cssselect elem sel_contributors) in
      translations <- lift (loads translations_data) ;;
      data <- lift (build_data repo translations contributors_count
                      release_github_version release_github_version_code
                      release_github_apk stable_data) ;;
      update_cache data ;;
      lock_release_call ;;
      add_default_headers ;;
      self_call (write data) ;;
      self_call (finish None) ;;
      Ret VNone
  | _ => Raise ValueError
  end.

Definition fetch_data_and_assemble_response : prog value :=
  lock_acquire_yield ;;
  logger_log (LogText INFO "Fetching latest release from GitHub") ;;
  responses <- gen_multi (map fetch core_requests) ;;
  for_responses responses (assemble_and_respond (map body responses)).

Definition get : prog unit :=
  now <- datetime_now ;;
  c <- read_cls ;;
  if match _last_failed_request c with
     | Some failed => now - failed <? _timeout
     | None => false
     end
  then
    logger_log (LogText INFO "Request failed recently, waiting for timeout") ;;
    add_default_headers ;;
    self_call (write_error 500)
  else
    outdated <- is_request_outdated ;;
    if outdated then
      fetch_data_and_assemble_response ;; Ret tt
    else
      add_default_headers ;;
      c <- read_cls ;;
      self_call (write (py_of_option (_cached_response c))).

(** How Tornado runs the method ([RequestHandler._execute]): an
    exception that escapes is answered with [send_error(500)] unless
    the response is already finished; a method that returns without
    finishing the response has it finished for it. *)
Definition execute (method_ : prog unit) : prog unit :=
  try_with
    (method_ ;;
     self_call (fun h => if _finished h then Return h else finish None h))
    (fun _ =>
       self_call (fun h => if _finished h then Return h else send_error 500 h)).

End Libraries.

(** ** One request on its own *)

(** The world a request runs in: the successive readings of the clock
    and what the network does with each request. *)
Record World : Type := mkWorld {
  clock : nat -> Z;
  net : HTTPRequest -> wire
}.

Inductive event : Type :=
| Fetched (calls : list FetchCall)
| Acquired
| Released
| Logged (r : logrec).

Record Machine : Type := mkMachine {
  cls : Cls;
  self : Handler;
  ticks : nat;
  trace : list event
}.

Definition with_cls (c : Cls) (m : Machine) : Machine :=
  {| cls := c; self := self m; ticks := ticks m; trace := trace m |}.
Definition with_self (h : Handler) (m : Machine) : Machine :=
  {| cls := cls m; self := h; ticks := ticks m; trace := trace m |}.
Definition tick (m : Machine) : Machine :=
  {| cls := cls m; self := self m; ticks := S (ticks m); trace := trace m |}.
Definition emit (e : event) (m : Machine) : Machine :=
  {| cls := cls m; self := self m; ticks := ticks m;
     trace := (trace m ++ [e])%list |}.

(** A request either runs to its end, with a value or an exception, or
    waits for a lock that nobody is left to release. *)
Inductive outcome (A : Type) : Type :=
| Finished (r : result A)
| Blocked.
Arguments Finished {A} r.
Arguments Blocked {A}.

(** [gen.multi]: the results of all the calls, or the first exception. *)
Fixpoint multi {A} (rs : list (result A)) : result (list A) :=
  match rs with
  | [] => Return []
  | r :: rs' =>
      (a <-- r ;;; l <-- multi rs' ;;; Return (a :: l))%result
  end.

Definition perform (w : World) (calls : list FetchCall)
  : result (list HTTPResponse) :=
  multi (map (fun c =>
                client_fetch (fc_request c) (fc_raise_error c) (net w (fc_request c)))
             calls).

Fixpoint run {A} (w : World) (p : prog A) (m : Machine) : outcome A * Machine :=
  match p with
  | Ret a => (Finished (Return a), m)
  | Raise e => (Finished (Except e), m)
  | DatetimeNow k => run w (k (clock w (ticks m))) (tick m)
  | ReadCls k => run w (k (cls m)) m
  | WriteCls f k => run w k (with_cls (f (cls m)) m)
  | Self f k =>
      match f (self m) with
      | Return h => run w (k (Return tt)) (with_self h m)
      | Except e => run w (k (Except e)) m
      end
  | Logger r k => run w k (emit (Logged r) m)
  | LockAcquire k =>
      match lock_acquire 0 (_lock (cls m)) with
      | (true, l) => run w k (emit Acquired (with_cls (set_lock l (cls m)) m))
      | (false, l) => (Blocked, with_cls (set_lock l (cls m)) m)
      end
  | LockRelease k =>
      match lock_release (_lock (cls m)) with
      | Return (l, _) =>
          run w (k (Return tt)) (emit Released (with_cls (set_lock l (cls m)) m))
      | Except e => run w (k (Except e)) m
      end
  | GenMulti calls k => run w (k (perform w calls)) (emit (Fetched calls) m)
  end.

(** The requests that went upstream during a run. *)
Fixpoint upstream (t : list event) : list HTTPRequest :=
  match t with
  | [] => []
  | Fetched calls :: t' => (map fc_request calls ++ upstream t')%list
  | _ :: t' => upstream t'
  end.

Fixpoint acquisitions (t : list event) : nat :=
  match t with
  | [] => O
  | Acquired :: t' => S (acquisitions t')
  | _ :: t' => acquisitions t'
  end.

(** A request as the server starts it: a fresh handler, nothing
    observed yet. *)
Definition start (c : Cls) : Machine :=
  {| cls := c; self := new_handler; ticks := O; trace := [] |}.

(** The three responses the handler can produce. *)
Definition served (doc : value) : Handler :=
  {| _status_code := 200; _reason := "OK";
     _headers := [ ("Access-Control-Allow-Origin", "newpipe.schabi.org");
                   ("Content-Type", "application/json; charset=UTF-8") ];
     _write_buffer := [Json doc];
     _finished := true |}.

Definition rejected_response : Handler :=
  {| _status_code := 200; _reason := "OK";
     _headers := [ ("Content-Type", "text/html; charset=UTF-8");
                   ("Content-Type", "text/plain");
                   ("Access-Control-Allow-Origin", "newpipe.schabi.org") ];
     _write_buffer := [Text (error_page 500 "OK")];
     _finished := true |}.

Definition error_response : Handler :=
  {| _status_code := 500; _reason := "Internal Server Error";
     _headers := [ ("Content-Type", "text/html; charset=UTF-8") ];
     _write_buffer := [Text (error_page 500 "Internal Server Error")];
     _finished := true |}.

Definition held_lock : Lock := {| _value := 0; _waiters := [] |}.

Definition backoff_message : logrec :=
  LogText INFO "Request failed recently, waiting for timeout".
Definition fetching_message : logrec :=
  LogText INFO "Fetching latest release from GitHub".

(** A request was rejected by the backoff check when the first thing it
    did was to log the backoff message. *)
Definition rejected (m : Machine) : Prop :=
  hd_error (trace m) = Some (Logged backoff_message).

(** The freshness test of [is_request_outdated] at clock reading [now]. *)
Definition outdated (c : Cls) (now : Z) : bool :=
  match _cached_response c with
  | None => true
  | Some _ => _timeout <? now - _last_request c
  end.

(** The backoff test of [get] at clock reading [now]. *)
Definition backoff_fires (c : Cls) (now : Z) : bool :=
  match _last_failed_request c with
  | Some failed => now - failed <? _timeout
  | None => false
  end.

(** The first response of the loop that carries an error. *)
Fixpoint first_error (responses : list HTTPResponse)
  : option (HTTPResponse * HTTPError) :=
  match responses with
  | [] => None
  | r :: rs =>
      match error r with
      | Some e => Some (r, e)
      | None => first_error rs
      end
  end.

Definition core_responses (w : World) : list HTTPResponse :=
  map (fun req => response_of req (net w req)) core_requests.

(** ** Many requests on one event loop *)

(** Where a request stands between two turns of the event loop: queued
    on the lock, handed the lock but not resumed yet, waiting for the
    responses of the fetches it issued, or done. *)
Inductive status : Type :=
| AwaitLock (k : prog unit)
| Granted (k : prog unit)
| AwaitFetch (calls : list FetchCall) (k : result (list HTTPResponse) -> prog unit)
| Completed (r : result unit).

Record Task : Type := mkTask {
  handler : Handler;
  state : status
}.

Record Server : Type := mkServer {
  shared : Cls;
  readings : nat;
  tasks : list Task;
  journal : list (nat * event)
}.

Definition boot (c : Cls) : Server :=
  {| shared := c; readings := O; tasks := []; journal := [] |}.

Definition with_shared (c : Cls) (s : Server) : Server :=
  {| shared := c; readings := readings s; tasks := tasks s; journal := journal s |}.
Definition read_clock (s : Server) : Server :=
  {| shared := shared s; readings := S (readings s); tasks := tasks s;
     journal := journal s |}.
Definition with_tasks (ts : list Task) (s : Server) : Server :=
  {| shared := shared s; readings := readings s; tasks := ts; journal := journal s |}.
Definition note (who : nat) (e : event) (s : Server) : Server :=
  {| shared := shared s; readings := readings s; tasks := tasks s;
     journal := (journal s ++ [(who, e)])%list |}.

Fixpoint replace_task (who : nat) (t : Task) (ts : list Task) : list Task :=
  match who, ts with
  | O, _ :: ts' => t :: ts'
  | O, [] => [t]
  | S n, t' :: ts' => t' :: replace_task n t ts'
  | S _, [] => [t]
  end.

(** The waiter that [release] picked now holds the lock; it runs again
    on a later turn of the loop. *)
Definition grant (woken : option nat) (s : Server) : Server :=
  match woken with
  | None => s
  | Some w =>
      match nth_error (tasks s) w with
      | Some {| handler := h; state := AwaitLock k |} =>
          with_tasks (replace_task w {| handler := h; state := Granted k |} (tasks s)) s
      | _ => s
      end
  end.

(** One turn of request [who]: its code runs until it yields or ends. *)
Fixpoint advance (clk : nat -> Z) (who : nat) (p : prog unit) (h : Handler)
    (s : Server) : Server * Task :=
  match p with
  | Ret a => (s, {| handler := h; state := Completed (Return a) |})
  | Raise e => (s, {| handler := h; state := Completed (Except e) |})
  | DatetimeNow k => advance clk who (k (clk (readings s))) h (read_clock s)
  | ReadCls k => advance clk who (k (shared s)) h s
  | WriteCls f k => advance clk who k h (with_shared (f (shared s)) s)
  | Self f k =>
      match f h with
      | Return h' => advance clk who (k (Return tt)) h' s
      | Except e => advance clk who (k (Except e)) h s
      end
  | Logger r k => advance clk who k h (note who (Logged r) s)
  | LockAcquire k =>
      match lock_acquire who (_lock (shared s)) with
      | (true, l) =>
          advance clk who k h (note who Acquired (with_shared (set_lock l (shared s)) s))
      | (false, l) =>
          (with_shared (set_lock l (shared s)) s, {| handler := h; state := AwaitLock k |})
      end
  | LockRelease k =>
      match lock_release (_lock (shared s)) with
      | Return (l, woken) =>
          advance clk who (k (Return tt)) h
            (grant woken (note who Released (with_shared (set_lock l (shared s)) s)))
      | Except e => advance clk who (k (Except e)) h s
      end
  | GenMulti calls k =>
      (note who (Fetched calls) s, {| handler := h; state := AwaitFetch calls k |})
  end.

Definition settle (who : nat) (r : Server * Task) : Server :=
  with_tasks (replace_task who (snd r) (tasks (fst r))) (fst r).

(** What the event loop reacts to: a new request, the responses to the
    fetches of a request, the turn of a request that was handed the
    lock. *)
Inductive input : Type :=
| Request
| Responses (who : nat) (ws : list wire)
| Resume (who : nat).

Definition answer (calls : list FetchCall) (ws : list wire)
  : result (list HTTPResponse) :=
  multi (map (fun cw => client_fetch (fc_request (fst cw)) (fc_raise_error (fst cw)) (snd cw))
             (combine calls ws)).

Definition step (clk : nat -> Z) (handle : prog unit) (s : Server) (i : input)
  : Server :=
  match i with
  | Request =>
      let who := List.length (tasks s) in
      settle who (advance clk who handle new_handler s)
  | Responses who ws =>
      match nth_error (tasks s) who with
      | Some {| handler := h; state := AwaitFetch calls k |} =>
          if Nat.eqb (List.length ws) (List.length calls)
          then settle who (advance clk who (k (answer calls ws)) h s)
          else s
      | _ => s
      end
  | Resume who =>
      match nth_error (tasks s) who with
      | Some {| handler := h; state := Granted k |} =>
          settle who (advance clk who k h s)
      | _ => s
      end
  end.

Definition serve (clk : nat -> Z) (handle : prog unit) (s : Server)
    (inputs : list input) : Server :=
  fold_left (step clk handle) inputs s.

(** The requests that went upstream, by whom. *)
Fixpoint fetched_by (j : list (nat * event)) : list (nat * list HTTPRequest) :=
  match j with
  | [] => []
  | (who, Fetched calls) :: j' => (who, map fc_request calls) :: fetched_by j'
  | _ :: j' => fetched_by j'
  end.

Definition responded (t : Task) : option (Z * list chunk) :=
  match state t with
  | Completed _ => Some (_status_code (handler t), _write_buffer (handler t))
  | _ => None
  end.

(** ** A sample world

    Concrete upstream answers, and libraries that parse exactly these
    answers the way the real ones do; used to run the handler. *)
Module Sample.

Definition dq : string := String (ascii_of_nat 34) "".

Definition repo_json : string :=
  "{" ++ dq ++ "stargazers_count" ++ dq ++ ": 9000, "
      ++ dq ++ "subscribers_count" ++ dq ++ ": 300, "
      ++ dq ++ "forks_count" ++ dq ++ ": 1200}".

Definition translations_json : string :=
  "{" ++ dq ++ "count" ++ dq ++ ": 57}".

Definition release_page : string :=
  "<div class=release><div class=float-left><ul><li><a><code>0a1b2c3</code></a>"
  ++ "</li></ul></div></div>".

Definition contributors_page : string :=
  "<ul class=numbers-summary><li><a href=/TeamNewPipe/NewPipe/graphs/contributors>"
  ++ "<span class=num> 412 </span></a></li></ul>".

Definition fdroid_metadata : string :=
  "Build:0.13.7,730" ++ String newline "    commit=v0.13.7".

(** A metadata file without any build entry. *)
Definition fdroid_no_build : string := "Categories:Multimedia".

Definition json_loads (s : string) : result value :=
  if String.eqb s repo_json then
    Return (VDict [ ("stargazers_count", VInt 9000);
                    ("subscribers_count", VInt 300);
                    ("forks_count", VInt 1200) ])
  else if String.eqb s translations_json then
    Return (VDict [ ("count", VInt 57) ])
  else Except JSONDecodeError.

Definition html_fromstring (s : string) : result string :=
  if String.eqb s "" then Except ParserError else Return s.

Definition cssselect (page sel : string) : list Tag :=
  if String.eqb page release_page && String.eqb sel sel_hash then
    [ {| text := Some "0a1b2c3"; href := None |} ]
  else if String.eqb page contributors_page && String.eqb sel sel_contributors then
    [ {| text := Some " 412 "; href := None |} ]
  else [].

Definition decode (s : string) : result string := Return s.

Definition gradle_request : HTTPRequest :=
  make_request
    "https://raw.githubusercontent.com/TeamNewPipe/NewPipe/0a1b2c3/app/build.gradle".

(** An answer with status 200, and the answer of a server that is down. *)
Definition ok (content : string) : wire := Answered 200 "OK" content None.
Definition unavailable : wire :=
  Answered 503 "Service Unavailable" "try again later" None.

Definition gradle_ok : wire := ok "    versionCode 730".
Definition gradle_comment : wire := ok "    versionCode 730 // hotfix".

(** The network: the F-Droid metadata, the contributors page and the
    [build.gradle] file are answered as given, the rest is fixed. *)
Definition answers (stable contributors gradle : wire) (req : HTTPRequest) : wire :=
  if String.eqb (url req) repo_url then ok repo_json
  else if String.eqb (url req) stable_url then stable
  else if String.eqb (url req) release_github_url then ok release_page
  else if String.eqb (url req) contributors_url then contributors
  else if String.eqb (url req) translations_url then ok translations_json
  else if String.eqb (url req) (url gradle_request) then gradle
  else Failed "unreachable".

Definition core_ok : list wire :=
  [ ok repo_json; ok fdroid_metadata; ok release_page;
    ok contributors_page; ok translations_json ].

(** The clock: ten hours after the epoch, one microsecond per reading. *)
Definition ticking (n : nat) : Z := 10 * _timeout + Z.of_nat n.

Definition world (stable contributors gradle : wire) : World :=
  {| clock := ticking; net := answers stable contributors gradle |}.

Definition healthy : World :=
  world (ok fdroid_metadata) (ok contributors_page) gradle_ok.

Definition get : prog unit :=
  get string json_loads html_fromstring cssselect decode.

Definition fetch_data_and_assemble_response : prog value :=
  fetch_data_and_assemble_response string json_loads html_fromstring cssselect decode.

(** The document of the healthy world. *)
Definition fields : list (string * value) :=
  [ ("stats", VDict
      [ ("stargazers", VInt 9000);
        ("watchers", VInt 300);
        ("forks", VInt 1200);
        ("contributors", VInt 412);
        ("translations", VInt 57) ]);
    ("flavors", VDict
      [ ("github", VDict
          [ ("stable", VDict
              [ ("version", VInt (-1));
                ("version_code", VInt 730);
                ("apk", VInt (-1)) ]) ]);
        ("fdroid", VDict
          [ ("stable", VDict
              [ ("version", VStr "v0.13.7");
                ("version_code", VInt 730);
                ("apk", VStr "https://f-droid.org/repo/org.schabi.newpipe_730.apk") ]) ]) ]) ].

Definition document : value := VDict fields.

(** The same upstream, except that the line of [build.gradle] that
    holds the version code ends in a comment. *)
Definition gradle_with_comment : World :=
  world (ok fdroid_metadata) (ok contributors_page) gradle_comment.

(** The same upstream, except that [build.gradle] cannot be fetched. *)
Definition gradle_unreachable : World :=
  world (ok fdroid_metadata) (ok contributors_page)
    (Failed "Timeout while connecting").

(** The same upstream, except that the F-Droid metadata lists no build. *)
Definition metadata_without_build : World :=
  world (ok fdroid_no_build) (ok contributors_page) gradle_ok.

(** The same upstream, except that the server of the contributors page
    refuses the connection. *)
Definition contributors_unreachable : World :=
  world (ok fdroid_metadata) (Failed "Connection refused") gradle_ok.

(** The same upstream, except that the contributors page is down. *)
Definition contributors_down : World :=
  world (ok fdroid_metadata) unavailable gradle_ok.

Definition core_with_outage : list wire :=
  [ ok repo_json; ok fdroid_metadata; ok release_page;
    unavailable; ok translations_json ].

(** The class as the module leaves it when it is loaded at time 0. *)
Definition at_startup : Cls := class_body 0 0.

(** The class right after a failed refresh, one second before the
    first reading of the clock. *)
Definition after_failure : Cls :=
  set_last_failed_request (Some (10 * _timeout - 1000000)) at_startup.

(** The class right after a successful refresh, half an hour before
    the first reading of the clock. *)
Definition after_success : Cls :=
  set_last_request (10 * _timeout - 1800 * 1000000)
    (set_cached_response (Some document) at_startup).

(** Two requests, the second arriving while the first waits for its
    fetches. *)
Definition two_requests : list input :=
  [ Request;
    Request;
    Responses 0 core_ok;
    Responses 0 [gradle_ok];
    Resume 1;
    Responses 1 core_ok;
    Responses 1 [gradle_ok] ].

(** The same two requests when the contributors page is down. *)
Definition two_requests_outage : list input :=
  [ Request;
    Request;
    Responses 0 core_with_outage;
    Resume 1;
    Responses 1 core_with_outage ].

End Sample.

(** ** Vocabulary of the statements *)

(** A request was answered with a status in 200..299. *)
Definition wire_ok (wr : wire) : bool :=
  match wr with
  | Answered status _ _ _ => (200 <=? status) && (status <? 300)
  | Failed _ => false
  end.

(** The request reached a server that answered it, with whatever
    status. *)
Definition answered (wr : wire) : bool :=
  match wr with
  | Answered _ _ _ _ => true
  | Failed _ => false
  end.

(** All the requests of one [gen.multi] were answered. *)
Definition all_answered (w : World) (reqs : list HTTPRequest) : bool :=
  forallb (fun req => answered (net w req)) reqs.

(** The machine a refresh leaves behind when the response [r] of one of
    the five fetches carries the error [e]: the lock is free again, the
    failure is dated, the error page is sent. *)
Definition refused (w : World) (r : HTTPResponse) (e : HTTPError) (m : Machine)
  : Machine :=
  {| cls := set_last_failed_request (Some (clock w (ticks m)))
              (set_lock new_lock (cls m));
     self := error_response;
     ticks := S (ticks m);
     trace := (trace m
               ++ [Released; Logged (LogApiError ERROR (effective_url r) e (body r))])%list |}.

(** ** [random_string] *)

Definition ascii_letters : string :=
  "abcdefghijklmnopqrstuvwxyzABCDEFGHIJKLMNOPQRSTUVWXYZ".
Definition digits : string := "0123456789".
Definition alphabet : string := ascii_letters ++ digits ++ "_/-.;:#+*?()$[]!".

(** [random.choice(seq)]: the item at the index the generator draws
    below [len(seq)]; [draw] is the number the generator yields, reduced
    to that range.  An empty sequence raises. *)
Definition random_choice (draw : nat) (seq : string) : result ascii :=
  match String.get (draw mod String.length seq) seq with
  | Some c => Return c
  | None => Except IndexError
  end.

(** The generator expression joined by [random_string], from the [i]-th
    draw on, [n] items. *)
Fixpoint random_chars (draws : nat -> nat) (i n : nat) : result string :=
  match n with
  | O => Return EmptyString
  | S n' =>
      (c <-- random_choice (draws i) alphabet ;;;
       s <-- random_chars draws (S i) n' ;;;
       Return (String c s))%result
  end.

(** [random_string(length)]; [range] of a negative number is empty. *)
Definition random_string (draws : nat -> nat) (length : Z) : result string :=
  random_chars draws 0 (Z.to_nat length).

(** ** More vocabulary *)

(** [sep.join(parts)]. *)
Fixpoint join (sep : ascii) (parts : list string) : string :=
  match parts with
  | [] => EmptyString
  | [p] => p
  | p :: ps => p ++ String sep (join sep ps)
  end.

Definition has_char (c : ascii) (s : string) : Prop :=
  In c (list_ascii_of_string s).

(** The sixth request of a refresh, for the commit hash [hash]. *)
Definition gradle_request (hash : string) : HTTPRequest :=
  make_request
    (("https://raw.githubusercontent.com/TeamNewPipe/NewPipe/" ++ hash)
     ++ "/app/build.gradle").

(** What deriving the version code can add to a trace: nothing, or the
    one request for [build.gradle]. *)
Definition chained (t : list event) : Prop :=
  t = [] \/ exists hash, t = [Fetched [fetch (gradle_request hash)]].

(** The cache is empty or holds a dictionary, as [update_cache] stores
    it. *)
Definition cache_ok (c : Cls) : Prop :=
  match _cached_response c with
  | None => True
  | Some (VDict _) => True
  | Some _ => False
  end.

(** The response [h] once it is closed. *)
Definition closed (h : Handler) : Handler :=
  {| _status_code := _status_code h; _reason := _reason h;
     _headers := _headers h; _write_buffer := _write_buffer h;
     _finished := true |}.

(** How a request ends that starts with the class attributes [c] and a
    free lock: what [get] itself ends with, a return or an exception,
    and the machine that is left when Tornado has closed the response. *)
Inductive ending (w : World) (c : Cls) : result unit -> Machine -> Prop :=
| Rejected :
    ending w c (Return tt)
      {| cls := c; self := rejected_response; ticks := 1;
         trace := [Logged backoff_message] |}
| Served (d : list (string * value)) :
    _cached_response c = Some (VDict d) ->
    ending w c (Return tt)
      {| cls := c; self := served (VDict d); ticks := 2; trace := [] |}
| Refused (r : HTTPResponse) (e : HTTPError) :
    all_answered w core_requests = true ->
    first_error (core_responses w) = Some (r, e) ->
    ending w c (Return tt)
      {| cls := set_last_failed_request (Some (clock w 2)) c;
         self := error_response;
         ticks := 3;
         trace := [ Acquired; Logged fetching_message;
                    Fetched (map fetch core_requests); Released;
                    Logged (LogApiError ERROR (effective_url r) e (body r)) ] |}
| Crashed (x : exn) (t : list event) :
    chained t ->
    ending w c (Except x)
      {| cls := set_lock held_lock c;
         self := error_response;
         ticks := 2;
         trace := (Acquired :: Logged fetching_message
                   :: Fetched (map fetch core_requests) :: t)%list |}
| Refreshed (d : list (string * value)) (t : list event) :
    chained t ->
    ending w c (Return tt)
      {| cls := set_last_request (clock w 2)
                  (set_cached_response (Some (VDict d)) c);
         self := served (VDict d);
         ticks := 3;
         trace := (Acquired :: Logged fetching_message
                   :: Fetched (map fetch core_requests) :: t ++ [Released])%list |}.

(** What the [try] block of the version code makes of the body of the
    [build.gradle] response: the last blank-separated word of the first
    [versionCode] line, or the sentinel when any step raises. *)
Definition gradle_version_code (decode : string -> result string)
    (gradle_file_data : option string) : value :=
  catch
    (gradle_file_data <-- decode_if_bytes decode gradle_file_data ;;;
     version_codes_g <-- re_findall "versionCode" gradle_file_data ;;;
     line <-- first_item version_codes_g ;;;
     v <-- last_item (split_on " "%char line) ;;;
     Return (VStr v))%result
    (VInt (-1)).

(** ** More of the sample world *)
Module Scenes.

(** The same world ten minutes later. *)
Definition later (w : World) : World :=
  {| clock := fun n => clock w n + 600 * 1000000; net := net w |}.

(** The class as loaded, while some request holds the lock. *)
Definition busy : Cls := set_lock held_lock Sample.at_startup.

(** The event loop after one request has sent its five fetches. *)
Definition one_in_flight : Server :=
  serve Sample.ticking (execute Sample.get) (boot Sample.at_startup) [Request].

(** The tag of the release page that holds the commit hash. *)
Definition hash_tag : Tag := {| text := Some "0a1b2c3"; href := None |}.

(** The healthy upstream, except that [build.gradle] is answered with
    status 404 and the usual content. *)
Definition gradle_not_found : World :=
  Sample.world (Sample.ok Sample.fdroid_metadata)
    (Sample.ok Sample.contributors_page)
    (Answered 404 "Not Found" "    versionCode 730" None).


Definition fdroid_stable : value :=
  VDict [ ("version", VStr "v0.13.7");
          ("version_code", VInt 730);
          ("apk", VStr "https://f-droid.org/repo/org.schabi.newpipe_730.apk") ].

End Scenes.

(** * Properties *)

(** ** Running programs: general facts *)

Lemma run_bind {A B} (w : World) (p : prog A) (f : A -> prog B) (m : Machine) :
  run w (bind p f) m =
  match run w p m with
  | (Finished (Return a), m') => run w (f a) m'
  | (Finished (Except e), m') => (Finished (Except e), m')
  | (Blocked, m') => (Blocked, m')
  end.
Proof.
  revert m; induction p as [a|e|k IH|k IH|g k IH|g k IH|r k IH|k IH|k IH|calls k IH];
    intros m; simpl; auto.
  - destruct (g (self m)); auto.
  - destruct (lock_acquire 0 (_lock (cls m))) as [[|] l]; auto.
  - destruct (lock_release (_lock (cls m))) as [[l o]|e]; auto.
Qed.

Lemma run_try_with {A} (w : World) (p : prog A) (h : exn -> prog A) (m : Machine) :
  run w (try_with p h) m =
  match run w p m with
  | (Finished (Except e), m') => run w (h e) m'
  | other => other
  end.
Proof.
  revert m; induction p as [a|e|k IH|k IH|g k IH|g k IH|r k IH|k IH|k IH|calls k IH];
    intros m; simpl; auto.
  - destruct (g (self m)); auto.
  - destruct (lock_acquire 0 (_lock (cls m))) as [[|] l]; auto.
  - destruct (lock_release (_lock (cls m))) as [[l o]|e]; auto.
Qed.

Lemma run_lift {A} (w : World) (r : result A) (m : Machine) :
  run w (lift r) m = (Finished r, m).
Proof. destruct r; reflexivity. Qed.

(** A run only ever adds to the trace. *)
Lemma run_trace_extends {A} (w : World) (p : prog A) (m : Machine) :
  exists t, trace (snd (run w p m)) = (trace m ++ t)%list.
Proof.
  revert m; induction p as [a|e|k IH|k IH|g k IH|g k IH|r k IH|k IH|k IH|calls k IH];
    intros m; simpl.
  - exists []; now rewrite app_nil_r.
  - exists []; now rewrite app_nil_r.
  - apply (IH _ (tick m)).
  - apply IH.
  - apply (IH (with_cls (g (cls m)) m)).
  - destruct (g (self m)) as [h|e].
    + apply (IH _ (with_self h m)).
    + apply IH.
  - destruct (IH (emit (Logged r) m)) as [t Ht].
    exists (Logged r :: t). rewrite Ht. simpl. now rewrite <- app_assoc.
  - destruct (lock_acquire 0 (_lock (cls m))) as [[|] l].
    + destruct (IH (emit Acquired (with_cls (set_lock l (cls m)) m))) as [t Ht].
      exists (Acquired :: t). rewrite Ht. simpl. now rewrite <- app_assoc.
    + exists []. simpl. now rewrite app_nil_r.
  - destruct (lock_release (_lock (cls m))) as [[l o]|e].
    + destruct (IH (Return tt) (emit Released (with_cls (set_lock l (cls m)) m)))
        as [t Ht].
      exists (Released :: t). rewrite Ht. simpl. now rewrite <- app_assoc.
    + apply IH.
  - destruct (IH (perform w calls) (emit (Fetched calls) m)) as [t Ht].
    exists (Fetched calls :: t). rewrite Ht. simpl. now rewrite <- app_assoc.
Qed.

(** Without [raise_error] the client returns every answer, whatever
    its status. *)
Lemma client_fetch_returns (req : HTTPRequest) (status : Z)
    (reason content : string) (landed : option string) :
  client_fetch req false (Answered status reason content landed)
  = Return (response_of req (Answered status reason content landed)).
Proof.
  unfold client_fetch. cbn [response_of error _error_is_response_code].
  destruct ((status <? 200) || (300 <=? status)); reflexivity.
Qed.

(** A transport failure is raised, with or without [raise_error]. *)
Lemma client_fetch_raises (req : HTTPRequest) (raise_error : bool)
    (detail : string) :
  client_fetch req raise_error (Failed detail) = Except TransportError.
Proof. unfold client_fetch. cbn. now rewrite orb_true_r. Qed.

(** [gen.multi] over calls of [fetch]: the responses when every request
    was answered, the transport failure otherwise. *)
Lemma perform_fetch (w : World) (reqs : list HTTPRequest) :
  perform w (map fetch reqs)
  = if all_answered w reqs
    then Return (map (fun req => response_of req (net w req)) reqs)
    else Except TransportError.
Proof.
  unfold perform, all_answered. induction reqs as [|req reqs IH].
  - reflexivity.
  - cbn [map multi forallb fetch fc_request fc_raise_error] in *.
    destruct (net w req) as [status reason content landed|detail]; cbn [answered andb].
    + rewrite client_fetch_returns. cbn [rbind]. rewrite IH.
      destruct (forallb _ reqs); reflexivity.
    + rewrite client_fetch_raises. reflexivity.
Qed.

Lemma perform_one (w : World) (req : HTTPRequest) :
  perform w [fetch req]
  = if answered (net w req)
    then Return [response_of req (net w req)]
    else Except TransportError.
Proof.
  pose proof (perform_fetch w [req]) as Hp.
  unfold all_answered in Hp. cbn [map forallb] in Hp.
  rewrite andb_true_r in Hp. exact Hp.
Qed.

Lemma upstream_app (t1 t2 : list event) :
  upstream (t1 ++ t2) = (upstream t1 ++ upstream t2)%list.
Proof.
  induction t1 as [|e t1 IH]; simpl; auto.
  destruct e; auto. rewrite IH. now rewrite app_assoc.
Qed.

Example int_of_str_730 : int_of_str " 730" = Return 730.
Proof. reflexivity. Qed.

Example int_of_str_empty : int_of_str "" = Except ValueError.
Proof. reflexivity. Qed.

Example int_of_str_comment : int_of_str "hotfix" = Except ValueError.
Proof. reflexivity. Qed.

Example int_of_str_blanks :
  int_of_str (String (ascii_of_nat 9) " 730" ++ String newline "") = Return 730
  /\ int_of_str (String (ascii_of_nat 160) "730") = Return 730
  /\ int_of_str (String (ascii_of_nat 28) "730") = Except ValueError
  /\ int_of_str ("730" ++ String (ascii_of_nat 31) "") = Except ValueError
  /\ int_of_str "7 30" = Except ValueError.
Proof. repeat split. Qed.

Example int_of_str_signs :
  int_of_str "-730" = Return (-730)
  /\ int_of_str "+730" = Return 730
  /\ int_of_str "- 730" = Except ValueError
  /\ int_of_str "7_30" = Return 730
  /\ int_of_str "_730" = Except ValueError
  /\ int_of_str "730_" = Except ValueError.
Proof. repeat split. Qed.

Example int_of_str_limit :
  int_of_str (string_of_list_ascii (repeat "0"%char 4300)) = Return 0
  /\ int_of_str (string_of_list_ascii (repeat "0"%char 4301)) = Except ValueError.
Proof. vm_compute. split; reflexivity. Qed.

Example findall_two :
  findall_rest "Build:"
    ("Build:0.1,10" ++ String newline "x" ++ String newline "Build:0.2,20")
  = ["0.1,10"; "0.2,20"].
Proof. reflexivity. Qed.

Example split_two : split_on ","%char "0.2,20" = ["0.2"; "20"].
Proof. reflexivity. Qed.

(** How Tornado ends a request: a method that returns has its response
    closed, one that raises is answered with the error page, unless the
    response has gone out already. *)
Lemma run_execute (w : World) (p : prog unit) (m : Machine) :
  run w (execute p) m
  = match run w p m with
    | (Finished (Return _), m0) =>
        (Finished (Return tt),
         with_self (if _finished (self m0) then self m0 else closed (self m0)) m0)
    | (Finished (Except _), m0) =>
        (Finished (Return tt),
         with_self (if _finished (self m0) then self m0 else error_response) m0)
    | (Blocked, m0) => (Blocked, m0)
    end.
Proof.
  unfold execute. rewrite run_try_with, run_bind.
  destruct (run w p m) as [[[u|x]|] m0]; [| |reflexivity].
  - unfold self_call. cbn [run]. unfold finish.
    destruct (_finished (self m0)) eqn:Hf; [reflexivity|].
    cbn [rbind run lift]. reflexivity.
  - unfold self_call. cbn [run]. unfold send_error, write_error, finish, write.
    destruct (_finished (self m0)) eqn:Hf; [reflexivity|].
    cbn [clear set_status _finished]. rewrite Hf. reflexivity.
Qed.

(** ** The cache gate *)

Section Gate.

Variable Elem : Type.
Variable json_loads : string -> result value.
Variable html_fromstring : string -> result Elem.
Variable cssselect : Elem -> string -> list Tag.
Variable decode : string -> result string.

Local Notation "'handler_get'" :=
  (get Elem json_loads html_fromstring cssselect decode).
Local Notation "'refresh'" :=
  (fetch_data_and_assemble_response Elem json_loads html_fromstring cssselect decode).

(** The three ways through [get], first for the method on its own. *)
Lemma method_rejects (w : World) (c : Cls) :
  backoff_fires c (clock w 0) = true ->
  run w handler_get (start c)
  = (Finished (Return tt),
     {| cls := c; self := rejected_response; ticks := 1;
        trace := [Logged backoff_message] |}).
Proof.
  unfold backoff_fires. intros H.
  unfold get. simpl. rewrite H. reflexivity.
Qed.

Lemma method_serves (w : World) (c : Cls) (d : list (string * value)) :
  backoff_fires c (clock w 0) = false ->
  _cached_response c = Some (VDict d) ->
  (_timeout <? clock w 1 - _last_request c) = false ->
  exists h,
    run w handler_get (start c)
    = (Finished (Return tt), {| cls := c; self := h; ticks := 2; trace := [] |})
    /\ _finished h = false
    /\ closed h = served (VDict d).
Proof.
  unfold backoff_fires. intros H Hc Hf. eexists.
  unfold get. simpl. rewrite H. simpl. rewrite Hc. simpl.
  rewrite Hf. simpl. rewrite Hc. cbn. repeat split.
Qed.

Lemma method_refreshes (w : World) (c : Cls) :
  backoff_fires c (clock w 0) = false ->
  outdated c (clock w 1) = true ->
  run w handler_get (start c)
  = run w (refresh ;; Ret tt)
      {| cls := c; self := new_handler; ticks := 2; trace := [] |}.
Proof.
  unfold backoff_fires, outdated. intros H Ho.
  unfold get. simpl. rewrite H. simpl.
  destruct (_cached_response c) as [v|]; simpl.
  - rewrite Ho. reflexivity.
  - reflexivity.
Qed.

(** The same under Tornado's wrapper. *)
Lemma get_rejects (w : World) (c : Cls) :
  backoff_fires c (clock w 0) = true ->
  run w (execute handler_get) (start c)
  = (Finished (Return tt),
     {| cls := c; self := rejected_response; ticks := 1;
        trace := [Logged backoff_message] |}).
Proof.
  unfold backoff_fires. intros H.
  unfold execute, get. simpl. rewrite H. reflexivity.
Qed.

Lemma get_serves (w : World) (c : Cls) (d : list (string * value)) :
  backoff_fires c (clock w 0) = false ->
  _cached_response c = Some (VDict d) ->
  (_timeout <? clock w 1 - _last_request c) = false ->
  run w (execute handler_get) (start c)
  = (Finished (Return tt),
     {| cls := c; self := served (VDict d); ticks := 2; trace := [] |}).
Proof.
  unfold backoff_fires. intros H Hc Hf.
  unfold execute, get. simpl. rewrite H. simpl. rewrite Hc. simpl.
  rewrite Hf. simpl. rewrite Hc. reflexivity.
Qed.

Lemma get_refreshes (w : World) (c : Cls) :
  backoff_fires c (clock w 0) = false ->
  outdated c (clock w 1) = true ->
  run w (execute handler_get) (start c)
  = run w (execute (refresh ;; Ret tt))
      {| cls := c; self := new_handler; ticks := 2; trace := [] |}.
Proof.
  unfold backoff_fires, outdated. intros H Ho.
  unfold execute, get. simpl. rewrite H. simpl.
  destruct (_cached_response c) as [v|]; simpl.
  - rewrite Ho. reflexivity.
  - reflexivity.
Qed.

(** A request that is not rejected and finds the cache fresh leaves no
    trace at all. *)
Lemma get_fresh_trace (w : World) (c : Cls) :
  backoff_fires c (clock w 0) = false ->
  outdated c (clock w 1) = false ->
  trace (snd (run w (execute handler_get) (start c))) = [].
Proof.
  unfold backoff_fires, outdated. intros H Ho.
  unfold execute, get. simpl. rewrite H. simpl.
  destruct (_cached_response c) as [v|] eqn:Hc; [|discriminate].
  simpl. rewrite Ho. simpl. rewrite Hc.
  destruct v; reflexivity.
Qed.

(** Running the refresh: the lock is taken and the five requests go
    out; when all of them are answered the loop runs over the responses,
    otherwise the transport failure is raised where [gen.multi] is
    awaited. *)
Lemma run_refresh (w : World) (m : Machine) :
  _lock (cls m) = new_lock ->
  run w refresh m
  = let m1 :=
      emit (Fetched (map fetch core_requests))
        (emit (Logged fetching_message)
           (emit Acquired (with_cls (set_lock held_lock (cls m)) m))) in
    if all_answered w core_requests
    then run w (for_responses (core_responses w)
                  (assemble_and_respond Elem json_loads html_fromstring cssselect
                     decode (map body (core_responses w))))
           m1
    else (Finished (Except TransportError), m1).
Proof.
  intros Hl. unfold fetch_data_and_assemble_response.
  unfold lock_acquire_yield. cbn [bind run]. rewrite Hl.
  cbn [lock_acquire new_lock _value _waiters Z.ltb Z.compare Z.sub Z.add Z.opp
       Z.pos_sub].
  unfold logger_log, gen_multi. cbn [bind run]. rewrite perform_fetch.
  cbv zeta. destruct (all_answered w core_requests); cbn [lift bind run];
    reflexivity.
Qed.

(** Whatever the refresh does, a request that reaches it was not
    rejected by the backoff check. *)
Lemma refresh_not_rejected (w : World) (m : Machine) :
  trace m = [] ->
  ~ rejected (snd (run w (execute (refresh ;; Ret tt)) m)).
Proof.
  intros Ht. unfold rejected, execute, fetch_data_and_assemble_response.
  unfold lock_acquire_yield. cbn [bind run try_with].
  destruct (lock_acquire 0 (_lock (cls m))) as [[|] l].
  - match goal with
    | |- context [run w ?p ?m'] => destruct (run_trace_extends w p m') as [t Hx]
    end.
    rewrite Hx. cbn [emit trace with_cls]. rewrite Ht. cbn. discriminate.
  - cbn [snd with_cls trace]. rewrite Ht. discriminate.
Qed.

Lemma refresh_trace_starts (w : World) (m : Machine) :
  _lock (cls m) = new_lock ->
  exists t,
    trace (snd (run w (execute (refresh ;; Ret tt)) m))
    = (trace m
       ++ Acquired :: Logged fetching_message :: Fetched (map fetch core_requests) :: t)%list.
Proof.
  intros Hl. unfold execute, fetch_data_and_assemble_response.
  unfold lock_acquire_yield. cbn [bind run try_with]. rewrite Hl.
  cbn [lock_acquire new_lock _value _waiters Z.ltb Z.compare].
  unfold logger_log, gen_multi. cbn [bind run try_with].
  match goal with
  | |- context [run w ?p ?m'] => destruct (run_trace_extends w p m') as [t Hx]
  end.
  exists t. rewrite Hx. cbn [emit trace with_cls].
  rewrite <- !app_assoc. reflexivity.
Qed.

(** C5. A request that the backoff check lets through and that finds a
    cached document no older than the timeout is answered with exactly
    that document: the run ends with the class attributes (the two
    timestamps, the cache, the lock) as they were, an empty trace (no
    upstream request, no lock operation) and the cached document in the
    response.  [clock w 0] is the reading of [get], [clock w 1] the one
    of [is_request_outdated]. *)
Theorem fresh_cache_is_served (w : World) (c : Cls) (d : list (string * value)) :
  _cached_response c = Some (VDict d) ->
  backoff_fires c (clock w 0) = false ->
  clock w 1 - _last_request c <= _timeout ->
  run w (execute handler_get) (start c)
  = (Finished (Return tt),
     {| cls := c; self := served (VDict d); ticks := 2; trace := [] |}).
Proof.
  intros Hc Hb Hf. apply get_serves; auto.
  apply Z.ltb_ge. exact Hf.
Qed.

(** C6. With a dated last failure, a request is rejected by the backoff
    check exactly when the reading of [get] is strictly less than the
    timeout after that failure.  A rejected request ends after that one
    clock reading (the freshness check is not reached) with the class
    attributes untouched and nothing but the log line in its trace: no
    lock operation, no upstream request.  From the boundary on, a
    request that finds the cache outdated takes the lock and sends the
    five requests. *)
Theorem backoff_gate (w : World) (c : Cls) (failed : Z) :
  _last_failed_request c = Some failed ->
  let m := snd (run w (execute handler_get) (start c)) in
  (rejected m <-> clock w 0 - failed < _timeout)
  /\ (rejected m ->
      m = {| cls := c; self := rejected_response; ticks := 1;
             trace := [Logged backoff_message] |})
  /\ (_timeout <= clock w 0 - failed ->
      outdated c (clock w 1) = true ->
      _lock c = new_lock ->
      exists t,
        trace m
        = Acquired :: Logged fetching_message :: Fetched (map fetch core_requests) :: t).
Proof.
  intros Hf m.
  assert (Hb : backoff_fires c (clock w 0) = (clock w 0 - failed <? _timeout)).
  { unfold backoff_fires. rewrite Hf. reflexivity. }
  assert (Hiff : rejected m <-> clock w 0 - failed < _timeout).
  { subst m. destruct (clock w 0 - failed <? _timeout) eqn:E.
    - rewrite get_rejects by (rewrite Hb; reflexivity).
      apply Z.ltb_lt in E. split; [auto | intros _; reflexivity].
    - apply Z.ltb_ge in E. split; [| lia].
      intros Hr. exfalso.
      destruct (outdated c (clock w 1)) eqn:Ho.
      + rewrite get_refreshes in Hr by (auto; rewrite Hb; apply Z.ltb_ge; lia).
        revert Hr. apply refresh_not_rejected. reflexivity.
      + unfold rejected in Hr.
        rewrite get_fresh_trace in Hr by (auto; rewrite Hb; apply Z.ltb_ge; lia).
        discriminate. }
  split; [exact Hiff | split].
  - intros Hr. apply Hiff in Hr. subst m.
    rewrite get_rejects by (rewrite Hb; apply Z.ltb_lt; exact Hr).
    reflexivity.
  - intros Hge Ho Hl. subst m.
    rewrite get_refreshes by (auto; rewrite Hb; apply Z.ltb_ge; lia).
    destruct (refresh_trace_starts w
                {| cls := c; self := new_handler; ticks := 2; trace := [] |} Hl)
      as [t Ht].
    exists t. exact Ht.
Qed.

(** C10. The class body dates the last success and the last failure two
    timeouts before its two clock readings and leaves the cache empty.
    The first request, whose clock reading is not earlier than the
    second of those, is therefore not rejected by the backoff check and
    starts a refresh: it takes the lock and sends the five requests. *)
Theorem first_request_refreshes (w : World) (t0 t1 : Z) :
  t1 <= clock w 0 ->
  let c := class_body t0 t1 in
  let m := snd (run w (execute handler_get) (start c)) in
  _last_request c = t0 - 2 * _timeout
  /\ _last_failed_request c = Some (t1 - 2 * _timeout)
  /\ _cached_response c = None
  /\ ~ rejected m
  /\ exists t,
       trace m
       = Acquired :: Logged fetching_message :: Fetched (map fetch core_requests) :: t.
Proof.
  intros Ht c m.
  assert (Hb : backoff_fires c (clock w 0) = false).
  { unfold backoff_fires, c, class_body. cbn [_last_failed_request].
    apply Z.ltb_ge. unfold _timeout. lia. }
  assert (Ho : outdated c (clock w 1) = true) by reflexivity.
  repeat split.
  - subst m. rewrite get_refreshes by auto.
    apply refresh_not_rejected. reflexivity.
  - subst m. rewrite get_refreshes by auto.
    destruct (refresh_trace_starts w
                {| cls := c; self := new_handler; ticks := 2; trace := [] |}
                eq_refl) as [t Hx].
    exists t. exact Hx.
Qed.

End Gate.

(** ** The refresh *)

Section Refresh.

Variable Elem : Type.
Variable json_loads : string -> result value.
Variable html_fromstring : string -> result Elem.
Variable cssselect : Elem -> string -> list Tag.
Variable decode : string -> result string.

Local Notation "'refresh'" :=
  (fetch_data_and_assemble_response Elem json_loads html_fromstring cssselect decode).
Local Notation "'assemble'" :=
  (assemble_and_respond Elem json_loads html_fromstring cssselect decode).

Lemma first_error_found (rs : list HTTPResponse) :
  (exists r, In r rs /\ error r <> None) ->
  exists r e, first_error rs = Some (r, e).
Proof.
  induction rs as [|a rs IH]; intros [r [Hin Hr]].
  - destruct Hin.
  - simpl. destruct (error a) as [e|] eqn:Ea.
    + now exists a, e.
    + destruct Hin as [<-|Hin]; [congruence|].
      apply IH. now exists r.
Qed.

(** The loop over the responses: it stops at the first one that carries
    an error. *)
Lemma run_for_responses (w : World) (rs : list HTTPResponse) (rest : prog value)
    (m : Machine) :
  _lock (cls m) = held_lock ->
  _finished (self m) = false ->
  run w (for_responses rs rest) m
  = match first_error rs with
    | Some (r, e) => (Finished (Return (VBool false)), refused w r e m)
    | None => run w rest m
    end.
Proof.
  intros Hl Hf. induction rs as [|a rs IH]; simpl.
  - reflexivity.
  - unfold validate_response. destruct (error a) as [e|] eqn:Ea.
    + unfold lock_release_call, logger_log, self_call, datetime_now, write_cls.
      cbn [bind run lift]. rewrite Hl.
      cbn [lock_release held_lock _value _waiters Z.leb Z.compare bind run lift
           emit with_cls self cls].
      unfold send_error. rewrite Hf.
      unfold write_error, finish, write, clear, set_status.
      cbn [_finished]. rewrite Hf.
      cbn. unfold refused, with_cls, tick, with_self, emit. cbn.
      rewrite <- app_assoc. reflexivity.
    + cbn [bind run]. exact IH.
Qed.

Lemma first_error_in (rs : list HTTPResponse) (r : HTTPResponse) (e : HTTPError) :
  first_error rs = Some (r, e) -> In r rs /\ error r = Some e.
Proof.
  induction rs as [|a rs IH]; simpl; [discriminate|].
  destruct (error a) as [e'|] eqn:Ea.
  - intros [= <- <-]. auto.
  - intros H. destruct (IH H). auto.
Qed.

Lemma upstream_core (t : list event) (tail : list event) :
  upstream tail = [] ->
  upstream (t ++ Acquired :: Logged fetching_message
              :: Fetched (map fetch core_requests) :: tail)
  = (upstream t ++ core_requests)%list.
Proof.
  intros Htail. rewrite upstream_app. f_equal.
  cbn [upstream]. rewrite Htail. rewrite app_nil_r.
  rewrite map_map. cbn [fetch fc_request]. apply map_id.
Qed.

(** The error a response carries, read off the wire. *)
Lemma response_error (req : HTTPRequest) (wr : wire) :
  error (response_of req wr)
  = match wr with
    | Answered status reason _ _ =>
        if wire_ok wr then None
        else Some {| err_code := status; err_message := reason |}
    | Failed detail => Some {| err_code := 599; err_message := detail |}
    end.
Proof.
  destruct wr as [status reason content landed|detail]; cbn [response_of error wire_ok].
  - destruct (Z.ltb_spec status 200), (Z.leb_spec 300 status),
      (Z.leb_spec 200 status), (Z.ltb_spec status 300);
      cbn; try reflexivity; lia.
  - reflexivity.
Qed.

(** X19. When the five requests are all answered and one of the answers
    has a status outside 200..299, the refresh returns [False] right
    after the loop: the trace holds the five requests and nothing after
    them but the release of the lock and the error log (no sixth
    request, no parse: the outcome does not depend on the libraries),
    the last failure is dated with the reading taken then, the response
    is the error page with status 500, and the cache and the date of the
    last success are as before. *)
Theorem http_failure_fails_refresh (w : World) (m : Machine) :
  _lock (cls m) = new_lock ->
  _finished (self m) = false ->
  all_answered w core_requests = true ->
  (exists req, In req core_requests /\ wire_ok (net w req) = false) ->
  exists r e m',
    In r (core_responses w)
    /\ error r = Some e
    /\ run w refresh m = (Finished (Return (VBool false)), m')
    /\ cls m' = set_last_failed_request (Some (clock w (ticks m))) (cls m)
    /\ _cached_response (cls m') = _cached_response (cls m)
    /\ _last_request (cls m') = _last_request (cls m)
    /\ self m' = error_response
    /\ _status_code (self m') = 500
    /\ trace m'
       = (trace m
          ++ [ Acquired; Logged fetching_message; Fetched (map fetch core_requests);
               Released; Logged (LogApiError ERROR (effective_url r) e (body r)) ])%list
    /\ upstream (trace m') = (upstream (trace m) ++ core_requests)%list.
Proof.
  intros Hl Hf Ha Hex.
  destruct (first_error_found (core_responses w)) as [r [e Hfe]].
  { destruct Hex as [req [Hin Hr]].
    exists (response_of req (net w req)). split.
    - unfold core_responses. apply in_map_iff. now exists req.
    - rewrite response_error.
      destruct (net w req) as [status reason content landed|detail];
        [rewrite Hr|]; discriminate. }
  destruct (first_error_in _ _ _ Hfe) as [Hin He].
  exists r, e. eexists. split; [exact Hin|]. split; [exact He|].
  split.
  { rewrite run_refresh by exact Hl. cbv zeta. rewrite Ha.
    rewrite run_for_responses by (auto). rewrite Hfe. reflexivity. }
  unfold refused. cbn [cls self trace ticks emit with_cls].
  repeat split.
  - destruct m as [c h n t]. cbn in *. destruct c. cbn in *. subst.
    reflexivity.
  - rewrite <- !app_assoc. reflexivity.
  - rewrite <- !app_assoc. cbn [app]. apply upstream_core. reflexivity.
Qed.

(** X21. When one of the five requests gets no answer (the transport
    fails), the refresh ends with the exception the client raises, right
    where the fetches are awaited: the five requests went out, nothing
    is released, logged as an error, dated or cached, and the response
    is not touched.  The lock taken at the start stays held. *)
Theorem transport_failure_keeps_the_lock (w : World) (m : Machine) :
  _lock (cls m) = new_lock ->
  all_answered w core_requests = false ->
  run w refresh m
  = (Finished (Except TransportError),
     {| cls := set_lock held_lock (cls m);
        self := self m;
        ticks := ticks m;
        trace := (trace m
                  ++ [ Acquired; Logged fetching_message;
                       Fetched (map fetch core_requests) ])%list |}).
Proof.
  intros Hl Ha. rewrite run_refresh by exact Hl. cbv zeta. rewrite Ha.
  unfold emit, with_cls. cbn [cls self ticks trace].
  rewrite <- !app_assoc. reflexivity.
Qed.

(** A loop that ends with [None] went through all the responses. *)
Lemma for_responses_success (w : World) (rs : list HTTPResponse)
    (rest : prog value) (m m' : Machine) :
  run w (for_responses rs rest) m = (Finished (Return VNone), m') ->
  run w rest m = (Finished (Return VNone), m').
Proof.
  induction rs as [|a rs IH]; simpl; [auto|].
  unfold validate_response. destruct (error a) as [e|].
  - unfold lock_release_call, logger_log, self_call, datetime_now, write_cls.
    cbn [bind run lift].
    destruct (lock_release (_lock (cls m))) as [[l o]|x]; cbn [bind run lift].
    + match goal with
      | |- context [send_error 500 ?h] => destruct (send_error 500 h)
      end; discriminate.
    + discriminate.
  - cbn [bind run]. exact IH.
Qed.

(** Deriving the version code never raises and touches neither the
    class attributes nor the response: it may add one fetch to the
    trace. *)
Lemma run_scrape_version_code (w : World) (tags : list Tag) (m : Machine) :
  exists v t,
    run w (scrape_version_code decode tags) m
    = (Finished (Return v),
       {| cls := cls m; self := self m; ticks := ticks m;
          trace := (trace m ++ t)%list |}).
Proof.
  assert (Hm : forall t', t' = [] ->
            m = {| cls := cls m; self := self m; ticks := ticks m;
                   trace := (trace m ++ t')%list |}).
  { intros t' ->. rewrite app_nil_r. now destruct m. }
  destruct tags as [|tag tags]; simpl.
  - exists (VInt (-1)), []. now rewrite <- Hm.
  - unfold try_except. rewrite run_try_with, run_bind, run_lift.
    destruct (str_add _ (text tag)) as [u|x].
    + unfold gen_multi. cbn [bind run]. rewrite perform_one.
      destruct (answered (net w (make_request (u ++ "/app/build.gradle"))));
        [| cbn [lift bind run]; eexists; eexists; reflexivity].
      cbn [map lift bind run].
      rewrite run_bind, run_lift. cbn [first_item].
      repeat (rewrite run_bind, run_lift;
              match goal with
              | |- context [match ?r with Return _ => _ | Except _ => _ end] =>
                  destruct r
              end; cbv beta iota);
      cbn [run]; eexists; eexists; reflexivity.
    + cbn [run]. exists (VInt (-1)), []. now rewrite <- Hm.
Qed.

Ltac lift_step H :=
  rewrite run_bind, run_lift in H;
  match type of H with
  | context [match ?r with Return _ => _ | Except _ => _ end] =>
      destruct r; cbv beta iota in H; [| discriminate H]
  end.

(** The part after the loop, when it ends with [None]: it stored a
    document, dated it, and released the lock. *)
Lemma assemble_success (w : World) (bodies : list (option string))
    (m m' : Machine) :
  _lock (cls m) = held_lock ->
  run w (assemble bodies) m = (Finished (Return VNone), m') ->
  exists data,
    cls m'
    = set_lock new_lock
        (set_last_request (clock w (ticks m))
           (set_cached_response (Some data) (cls m))).
Proof.
  intros Hl H.
  destruct bodies as [|b1 [|b2 [|b3 [|b4 [|b5 [|b6 bs]]]]]]; try discriminate H.
  unfold assemble_and_respond in H.
  lift_step H. lift_step H.
  rewrite run_bind in H.
  match type of H with
  | context [run w (scrape_version_code decode ?tags) m] =>
      destruct (run_scrape_version_code w tags m) as [v [t Hv]]
  end.
  rewrite Hv in H. clear Hv.
  lift_step H. lift_step H. lift_step H.
  unfold update_cache, lock_release_call, add_default_headers, self_call,
    write_cls, datetime_now in H.
  cbn [bind run lift with_cls tick cls self ticks trace set_last_request
       set_cached_response _lock] in H.
  rewrite Hl in H. cbn in H.
  unfold write, finish in H. cbn in H.
  destruct a3; destruct (_finished (self m)) eqn:Hfin; cbn in H;
    rewrite ?Hfin in H; cbn in H; try discriminate H; injection H as <-;
    eexists; cbn; reflexivity.
Qed.

(** C9. A refresh that succeeds (it returns [None]) leaves the class
    attributes as they were except for the cache, which holds the new
    document, and the date of the last success, which is the clock
    reading taken by [update_cache]: the date of the last failure is
    the one it was before, and the lock is free again. *)
Theorem success_keeps_last_failure (w : World) (m m' : Machine) :
  _lock (cls m) = new_lock ->
  run w refresh m = (Finished (Return VNone), m') ->
  exists data,
    cls m'
    = set_last_request (clock w (ticks m))
        (set_cached_response (Some data) (cls m))
    /\ _last_failed_request (cls m') = _last_failed_request (cls m)
    /\ _lock (cls m') = _lock (cls m).
Proof.
  intros Hl H.
  rewrite run_refresh in H by exact Hl. cbv zeta in H.
  destruct (all_answered w core_requests); [| discriminate H].
  apply for_responses_success in H.
  apply assemble_success in H; [| reflexivity].
  destruct H as [data Hd]. exists data.
  rewrite Hd. cbn [emit with_cls cls ticks].
  destruct m as [c h n t]. cbn in *. destruct c. cbn in *. subst.
  repeat split.
Qed.

End Refresh.

(** ** The fetcher *)

Example effective_url_after_redirect :
  effective_url
    (response_of (make_request contributors_url)
       (Answered 404 "Not Found" "" (Some "https://github.com/login")))
  = "https://github.com/login".
Proof. reflexivity. Qed.

Example raise_error_raises :
  client_fetch (make_request repo_url) true Sample.unavailable
  = Except HTTPClientError.
Proof. reflexivity. Qed.

(** X20. For every URL, [fetch(make_request(url))] is one GET request
    for that URL with an empty [User-Agent] header and with
    [raise_error] off.  When the server answers, with whatever status,
    awaiting the call returns a response and raises nothing, and adds
    exactly this one request to the trace; the response holds the status
    and the body of the answer, and it carries an error exactly when the
    status is outside 200..299: the error then holds that status and the
    reason phrase. *)
Theorem fetcher_returns_http_errors (u : string) (w : World) (m : Machine)
    (status : Z) (reason content : string) (landed : option string) :
  let req := make_request u in
  net w req = Answered status reason content landed ->
  url req = u
  /\ method req = "GET"
  /\ headers req = [("User-Agent", "")]
  /\ fc_raise_error (fetch req) = false
  /\ exists response,
       run w (gen_multi [fetch req]) m
       = (Finished (Return [response]), emit (Fetched [fetch req]) m)
       /\ code response = status
       /\ body response = Some content
       /\ error response
          = (if (200 <=? status) && (status <? 300) then None
             else Some {| err_code := status; err_message := reason |})
       /\ upstream (trace (snd (run w (gen_multi [fetch req]) m)))
          = (upstream (trace m) ++ [req])%list.
Proof.
  intros req Hn.
  assert (Hrun : run w (gen_multi [fetch req]) m
                 = (Finished (Return [response_of req (net w req)]),
                    emit (Fetched [fetch req]) m)).
  { unfold gen_multi. cbn [run]. rewrite perform_one, Hn. reflexivity. }
  repeat split.
  exists (response_of req (net w req)). split; [exact Hrun|].
  rewrite Hrun, response_error, Hn. cbn [snd emit trace response_of code body wire_ok].
  repeat split. rewrite upstream_app. reflexivity.
Qed.

(** ** The handler in the sample world *)

Example healthy_refresh :
  run Sample.healthy (execute Sample.get) (start Sample.at_startup)
  = (Finished (Return tt),
     {| cls := set_last_request (Sample.ticking 2)
                 (set_cached_response (Some Sample.document) Sample.at_startup);
        self := served Sample.document;
        ticks := 3;
        trace := [ Acquired; Logged fetching_message;
                   Fetched (map fetch core_requests);
                   Fetched [fetch Sample.gradle_request];
                   Released ] |}).
Proof. vm_compute. reflexivity. Qed.

(** When [build.gradle] cannot be fetched the version code is the
    sentinel and the refresh succeeds. *)
Example unreachable_gradle_degrades :
  let r := run Sample.gradle_unreachable Sample.fetch_data_and_assemble_response
             (start Sample.at_startup) in
  fst r = Finished (Return VNone)
  /\ option_map (lookup_path ["flavors"; "github"; "stable"; "version_code"])
       (_cached_response (cls (snd r)))
     = Some (Some (VInt (-1))).
Proof. vm_compute. split; reflexivity. Qed.

(** C3. All five fetches succeed and [build.gradle] is fetched, but the
    text after [versionCode] does not end in a number
    ([versionCode 730 // hotfix]): the conversion [int(...)], which
    stands outside the [try], raises [ValueError]; the refresh ends with
    that exception, nothing is cached, the lock stays held, and the
    caller gets the error page. *)
Theorem unparsable_version_code_raises :
  let w := Sample.gradle_with_comment in
  let r := run w Sample.fetch_data_and_assemble_response (start Sample.at_startup) in
  first_error (core_responses w) = None
  /\ upstream (trace (snd r)) = (core_requests ++ [Sample.gradle_request])%list
  /\ fst r = Finished (Except ValueError)
  /\ _cached_response (cls (snd r)) = None
  /\ _lock (cls (snd r)) = held_lock
  /\ self (snd (run w (execute Sample.get) (start Sample.at_startup)))
     = error_response.
Proof. vm_compute. repeat split. Qed.

(** C4. All five fetches succeed, but the F-Droid metadata holds no
    [Build:] line: [version_codes[-1]] in [assemble_release_data], which
    no [try] guards, raises [IndexError]; assembly produces no document,
    nothing is cached and the lock stays held. *)
Theorem assembly_raises_without_build :
  let w := Sample.metadata_without_build in
  let r := run w Sample.fetch_data_and_assemble_response (start Sample.at_startup) in
  first_error (core_responses w) = None
  /\ fst r = Finished (Except IndexError)
  /\ _cached_response (cls (snd r)) = None
  /\ _lock (cls (snd r)) = held_lock
  /\ self (snd (run w (execute Sample.get) (start Sample.at_startup)))
     = error_response.
Proof. vm_compute. repeat split. Qed.

(** C2. The server of the contributors page refuses the connection.
    [fetch] raises that failure although it passes [raise_error=False],
    and the exception leaves the refresh where [gen.multi] is awaited.
    The five requests went out and nothing follows them: the loop over
    the responses is not reached, so the refresh does not return
    [False], the last failure is not dated, and the lock taken at the
    start is not released.  The caller gets the error page from
    Tornado, nothing is cached, and the next request, ten minutes
    later, is not rejected by the backoff check: it waits for the lock.
    (When the same server answers with status 503, the refresh returns
    [False], dates the failure and releases the lock.) *)
Theorem transport_failure_escapes_refresh :
  let w := Sample.contributors_unreachable in
  let r := run w Sample.fetch_data_and_assemble_response (start Sample.at_startup) in
  let answer := run w (execute Sample.get) (start Sample.at_startup) in
  let sibling :=
    run Sample.contributors_down Sample.fetch_data_and_assemble_response
      (start Sample.at_startup) in
  net w (make_request contributors_url) = Failed "Connection refused"
  /\ fst r = Finished (Except TransportError)
  /\ trace (snd r)
     = [ Acquired; Logged fetching_message; Fetched (map fetch core_requests) ]
  /\ _last_failed_request (cls (snd r)) = _last_failed_request Sample.at_startup
  /\ _lock (cls (snd r)) = held_lock
  /\ _cached_response (cls (snd r)) = None
  /\ _last_request (cls (snd r)) = _last_request Sample.at_startup
  /\ fst answer = Finished (Return tt)
  /\ self (snd answer) = error_response
  /\ cls (snd answer) = set_lock held_lock Sample.at_startup
  /\ run (Scenes.later w) (execute Sample.get) (start (cls (snd answer)))
     = (Blocked,
        {| cls := set_lock {| _value := 0; _waiters := [0%nat] |} Sample.at_startup;
           self := new_handler; ticks := 2; trace := [] |})
  /\ fst sibling = Finished (Return (VBool false))
  /\ _last_failed_request (cls (snd sibling)) = Some (Sample.ticking 0)
  /\ _lock (cls (snd sibling)) = new_lock.
Proof. vm_compute. repeat split. Qed.

(** C8. The server of the contributors page refuses the connection:
    [fetch(make_request(url))], which passes [raise_error=False], does
    not return a response that carries the failure; the client raises
    it, and awaiting the call ends with that exception.  (An answer
    with status 503 is returned, as a response that carries the
    error.) *)
Theorem fetcher_raises_transport_failure :
  let w := Sample.contributors_unreachable in
  let req := make_request contributors_url in
  net w req = Failed "Connection refused"
  /\ method req = "GET"
  /\ headers req = [("User-Agent", "")]
  /\ fc_raise_error (fetch req) = false
  /\ client_fetch (fc_request (fetch req)) (fc_raise_error (fetch req)) (net w req)
     = Except TransportError
  /\ run w (gen_multi [fetch req]) (start Sample.at_startup)
     = (Finished (Except TransportError),
        emit (Fetched [fetch req]) (start Sample.at_startup))
  /\ option_map error
       (match run Sample.contributors_down (gen_multi [fetch req])
                (start Sample.at_startup) with
        | (Finished (Return [response]), _) => Some response
        | _ => None
        end)
     = Some (Some {| err_code := 503; err_message := "Service Unavailable" |}).
Proof. vm_compute. repeat split. Qed.

(** C7. A request that arrives one second after a failed refresh is
    rejected by the backoff check; its response is the error page that
    [write_error(500)] writes, under the status the response had before,
    200.  (A failed refresh answers through [send_error(500)], which
    sets the status: 500.  A success carries the document and the
    cross-origin header, with the content type that [write] sets for a
    dictionary.) *)
Theorem backoff_rejection_has_status_200 :
  let rejection :=
    snd (run Sample.healthy (execute Sample.get) (start Sample.after_failure)) in
  let failure :=
    snd (run Sample.contributors_down (execute Sample.get) (start Sample.at_startup)) in
  let success :=
    snd (run Sample.healthy (execute Sample.get) (start Sample.at_startup)) in
  rejected rejection
  /\ _status_code (self rejection) = 200
  /\ _write_buffer (self rejection)
     = [Text "<html><title>500: OK</title><body>500: OK</body></html>"]
  /\ _status_code (self failure) = 500
  /\ _status_code (self success) = 200
  /\ _write_buffer (self success) = [Json Sample.document]
  /\ _headers (self success)
     = [ ("Access-Control-Allow-Origin", "newpipe.schabi.org");
         ("Content-Type", "application/json; charset=UTF-8") ].
Proof. vm_compute. repeat split. Qed.

(** ** Two requests at once *)

(** C1. Two requests arrive while the cache is empty, the second while
    the first waits for its five fetches.  The second queues on the
    lock; once it is handed the lock it sends the five requests (and the
    sixth) again: two sets of upstream fetches go out, one per request,
    and each request is answered from its own refresh. *)
Theorem each_waiter_fetches_again :
  let s := serve Sample.ticking (execute Sample.get) (boot Sample.at_startup)
             Sample.two_requests in
  fetched_by (journal s)
  = [ (0%nat, core_requests); (0%nat, [Sample.gradle_request]);
      (1%nat, core_requests); (1%nat, [Sample.gradle_request]) ]
  /\ map responded (tasks s)
     = [ Some (200, [Json Sample.document]); Some (200, [Json Sample.document]) ]
  /\ _last_request (shared s) = Sample.ticking 5.
Proof. vm_compute. repeat split. Qed.

(** The same when the refresh fails: the second request repeats the
    five fetches although the first one has just failed. *)
Example waiters_repeat_failed_fetches :
  let s := serve Sample.ticking (execute Sample.get) (boot Sample.at_startup)
             Sample.two_requests_outage in
  fetched_by (journal s) = [ (0%nat, core_requests); (1%nat, core_requests) ]
  /\ map (fun t => option_map fst (responded t)) (tasks s) = [ Some 500; Some 500 ].
Proof. vm_compute. repeat split. Qed.

(** ** The general statements at the sample world *)

Lemma fresh_cache_is_served_witness :
  run Sample.healthy (execute Sample.get) (start Sample.after_success)
  = (Finished (Return tt),
     {| cls := Sample.after_success; self := served Sample.document;
        ticks := 2; trace := [] |}).
Proof.
  apply (fresh_cache_is_served string Sample.json_loads Sample.html_fromstring
           Sample.cssselect Sample.decode Sample.healthy Sample.after_success
           Sample.fields).
  - reflexivity.
  - reflexivity.
  - vm_compute. discriminate.
Defined.

Lemma backoff_gate_witness :
  let m := snd (run Sample.healthy (execute Sample.get) (start Sample.after_failure)) in
  (rejected m <-> clock Sample.healthy 0 - (10 * _timeout - 1000000) < _timeout)
  /\ (rejected m ->
      m = {| cls := Sample.after_failure; self := rejected_response; ticks := 1;
             trace := [Logged backoff_message] |})
  /\ (_timeout <= clock Sample.healthy 0 - (10 * _timeout - 1000000) ->
      outdated Sample.after_failure (clock Sample.healthy 1) = true ->
      _lock Sample.after_failure = new_lock ->
      exists t,
        trace m
        = Acquired :: Logged fetching_message :: Fetched (map fetch core_requests) :: t).
Proof.
  apply (backoff_gate string Sample.json_loads Sample.html_fromstring
           Sample.cssselect Sample.decode Sample.healthy Sample.after_failure
           (10 * _timeout - 1000000)).
  reflexivity.
Defined.

Lemma first_request_refreshes_witness :
  let c := class_body 0 0 in
  let m := snd (run Sample.healthy (execute Sample.get) (start c)) in
  _last_request c = 0 - 2 * _timeout
  /\ _last_failed_request c = Some (0 - 2 * _timeout)
  /\ _cached_response c = None
  /\ ~ rejected m
  /\ exists t,
       trace m
       = Acquired :: Logged fetching_message :: Fetched (map fetch core_requests) :: t.
Proof.
  apply (first_request_refreshes string Sample.json_loads Sample.html_fromstring
           Sample.cssselect Sample.decode Sample.healthy 0 0).
  vm_compute. discriminate.
Defined.

Lemma http_failure_fails_refresh_witness :
  exists r e m',
    In r (core_responses Sample.contributors_down)
    /\ error r = Some e
    /\ run Sample.contributors_down Sample.fetch_data_and_assemble_response
         (start Sample.at_startup)
       = (Finished (Return (VBool false)), m')
    /\ cls m'
       = set_last_failed_request (Some (clock Sample.contributors_down 0))
           Sample.at_startup
    /\ _cached_response (cls m') = None
    /\ _last_request (cls m') = _last_request Sample.at_startup
    /\ self m' = error_response
    /\ _status_code (self m') = 500
    /\ trace m'
       = [ Acquired; Logged fetching_message; Fetched (map fetch core_requests);
           Released; Logged (LogApiError ERROR (effective_url r) e (body r)) ]
    /\ upstream (trace m') = core_requests.
Proof.
  apply (http_failure_fails_refresh string Sample.json_loads Sample.html_fromstring
           Sample.cssselect Sample.decode Sample.contributors_down
           (start Sample.at_startup)).
  - reflexivity.
  - reflexivity.
  - reflexivity.
  - exists (make_request contributors_url). split.
    + cbn. auto.
    + reflexivity.
Defined.

Lemma transport_failure_keeps_the_lock_witness :
  run Sample.contributors_unreachable Sample.fetch_data_and_assemble_response
    (start Sample.after_success)
  = (Finished (Except TransportError),
     {| cls := set_lock held_lock Sample.after_success;
        self := new_handler;
        ticks := 0;
        trace := [ Acquired; Logged fetching_message;
                   Fetched (map fetch core_requests) ] |}).
Proof.
  apply (transport_failure_keeps_the_lock string Sample.json_loads
           Sample.html_fromstring Sample.cssselect Sample.decode
           Sample.contributors_unreachable (start Sample.after_success)).
  - reflexivity.
  - reflexivity.
Defined.

Lemma fetcher_returns_http_errors_witness :
  let req := make_request contributors_url in
  url req = contributors_url
  /\ method req = "GET"
  /\ headers req = [("User-Agent", "")]
  /\ fc_raise_error (fetch req) = false
  /\ exists response,
       run Sample.contributors_down (gen_multi [fetch req]) (start Sample.at_startup)
       = (Finished (Return [response]),
          emit (Fetched [fetch req]) (start Sample.at_startup))
       /\ code response = 503
       /\ body response = Some "try again later"
       /\ error response
          = (if (200 <=? 503) && (503 <? 300) then None
             else Some {| err_code := 503; err_message := "Service Unavailable" |})
       /\ upstream (trace (snd (run Sample.contributors_down
                                  (gen_multi [fetch req]) (start Sample.at_startup))))
          = (upstream (trace (start Sample.at_startup)) ++ [req])%list.
Proof.
  apply (fetcher_returns_http_errors contributors_url Sample.contributors_down
           (start Sample.at_startup) 503 "Service Unavailable" "try again later"
           None).
  reflexivity.
Defined.

Lemma success_keeps_last_failure_witness :
  exists data,
    cls (snd (run Sample.healthy Sample.fetch_data_and_assemble_response
                (start Sample.after_failure)))
    = set_last_request (clock Sample.healthy 0)
        (set_cached_response (Some data) Sample.after_failure)
    /\ _last_failed_request
         (cls (snd (run Sample.healthy Sample.fetch_data_and_assemble_response
                      (start Sample.after_failure))))
       = Some (10 * _timeout - 1000000)
    /\ _lock (cls (snd (run Sample.healthy Sample.fetch_data_and_assemble_response
                          (start Sample.after_failure))))
       = new_lock.
Proof.
  apply (success_keeps_last_failure string Sample.json_loads Sample.html_fromstring
           Sample.cssselect Sample.decode Sample.healthy (start Sample.after_failure)).
  - reflexivity.
  - vm_compute. reflexivity.
Defined.

(** ** [random_string] *)

Lemma get_in_range (s : string) (i : nat) :
  (i < String.length s)%nat -> exists c, String.get i s = Some c.
Proof.
  revert i. induction s as [|a s IH]; intros i Hi; simpl in *.
  - lia.
  - destruct i as [|i]; [now exists a|]. apply IH. lia.
Qed.

Lemma random_choice_alphabet (draw : nat) :
  exists c j, random_choice draw alphabet = Return c
              /\ String.get j alphabet = Some c.
Proof.
  unfold random_choice.
  destruct (get_in_range alphabet (draw mod String.length alphabet)) as [c Hc].
  { apply Nat.mod_upper_bound. vm_compute. discriminate. }
  rewrite Hc. now exists c, (draw mod String.length alphabet)%nat.
Qed.

Lemma random_chars_spec (draws : nat -> nat) (n i : nat) :
  exists s,
    random_chars draws i n = Return s
    /\ String.length s = n
    /\ forall c, has_char c s -> has_char c alphabet.
Proof.
  revert i. induction n as [|n IH]; intros i; simpl.
  - exists EmptyString. repeat split. intros c [].
  - destruct (random_choice_alphabet (draws i)) as [c [j [Hc Hj]]].
    destruct (IH (S i)) as [s [Hs [Hlen Hin]]].
    rewrite Hc. simpl. rewrite Hs. simpl.
    exists (String c s). repeat split.
    + simpl. now rewrite Hlen.
    + intros c' [<-|Hc']; [|now apply Hin].
      clear - Hj. unfold has_char.
      revert j Hj. generalize alphabet as a.
      induction a as [|x a IHa]; intros j Hj; simpl in *; [discriminate|].
      destruct j as [|j]; [injection Hj as ->; now left|].
      right. now apply (IHa j).
Qed.

(** X1. [random_string(length)] never raises; its result has exactly
    [length] characters (none for a negative [length]), each of them one
    of the 78 characters of the alphabet, whatever the generator draws. *)
Theorem random_string_length_and_alphabet (draws : nat -> nat) (length : Z) :
  exists s,
    random_string draws length = Return s
    /\ Z.of_nat (String.length s) = Z.max 0 length
    /\ (forall c, has_char c s -> has_char c alphabet)
    /\ String.length alphabet = 78%nat.
Proof.
  destruct (random_chars_spec draws (Z.to_nat length) 0) as [s [Hs [Hlen Hin]]].
  exists s. repeat split; auto.
  rewrite Hlen. lia.
Qed.

(** ** Splitting *)

Lemma split_on_nonempty (sep : ascii) (s : string) : split_on sep s <> [].
Proof.
  destruct s as [|c r]; simpl; [discriminate|].
  destruct (Ascii.eqb c sep); [discriminate|].
  destruct (split_on sep r); discriminate.
Qed.

Lemma join_split (sep : ascii) (s : string) : join sep (split_on sep s) = s.
Proof.
  induction s as [|c r IH]; simpl; [reflexivity|].
  destruct (Ascii.eqb_spec c sep) as [->|Hc].
  - pose proof (split_on_nonempty sep r) as Hn.
    destruct (split_on sep r) as [|h t]; [congruence|].
    cbn [join]. simpl. now rewrite <- IH.
  - destruct (split_on sep r) as [|h t] eqn:E.
    + now destruct (split_on_nonempty sep r).
    + rewrite <- IH. destruct t; reflexivity.
Qed.

Lemma split_parts_clean (sep : ascii) (s : string) :
  Forall (fun p => ~ has_char sep p) (split_on sep s).
Proof.
  induction s as [|c r IH]; simpl.
  - constructor; [intros []|constructor].
  - destruct (Ascii.eqb_spec c sep) as [->|Hc].
    + constructor; [intros []|exact IH].
    + destruct (split_on sep r) as [|h t].
      * constructor; [|constructor]. intros [H|[]]. congruence.
      * inversion IH as [|? ? Hh Ht]; subst. constructor; [|exact Ht].
        intros [H|H]; [congruence|]. now apply Hh.
Qed.

Lemma string_app_assoc (a b c : string) : ((a ++ b) ++ c = a ++ (b ++ c))%string.
Proof. induction a as [|x a IH]; simpl; [reflexivity|now rewrite IH]. Qed.

Lemma last_of_join (sep : ascii) (parts : list string) :
  parts <> [] ->
  exists v, last_item parts = Return v
            /\ In v parts
            /\ (join sep parts = v
                \/ exists before, join sep parts = before ++ String sep v).
Proof.
  induction parts as [|p ps IH]; [congruence|]. intros _.
  destruct ps as [|q ps].
  - exists p. simpl. auto.
  - destruct IH as [v [Hv [Hin Hj]]]; [discriminate|].
    exists v. split; [exact Hv|]. split; [now right|]. right.
    change (join sep (p :: q :: ps)) with (p ++ String sep (join sep (q :: ps))).
    destruct Hj as [->|[before ->]].
    + now exists p.
    + exists (p ++ String sep before).
      rewrite string_app_assoc. reflexivity.
Qed.

(** The last field of a split. *)
Lemma split_last_field (sep : ascii) (s : string) :
  exists v,
    last_item (split_on sep s) = Return v
    /\ ~ has_char sep v
    /\ (s = v \/ exists before, s = before ++ String sep v).
Proof.
  destruct (last_of_join sep (split_on sep s) (split_on_nonempty sep s))
    as [v [Hv [Hin Hj]]].
  exists v. split; [exact Hv|]. split.
  - pose proof (split_parts_clean sep s) as Hc.
    rewrite Forall_forall in Hc. now apply Hc.
  - rewrite join_split in Hj. destruct Hj as [->|[before ->]]; eauto.
Qed.

(** X2. [s.split(sep)[-1]] never raises: it is the text after the last
    separator of [s], or all of [s] when [s] holds no separator, and it
    holds no separator itself.  (This is how the version code is cut
    out of the last build line and out of the [versionCode] line.) *)
Theorem last_field_of_split (sep : ascii) (s : string) :
  exists v,
    last_item (split_on sep s) = Return v
    /\ ~ has_char sep v
    /\ (s = v \/ exists before, s = before ++ String sep v).
Proof. apply split_last_field. Qed.

(** ** Matching line by line *)










(** ** Every way a request can end *)

Section Endings.

Variable Elem : Type.
Variable json_loads : string -> result value.
Variable html_fromstring : string -> result Elem.
Variable cssselect : Elem -> string -> list Tag.
Variable decode : string -> result string.

Local Notation "'handler_get'" :=
  (get Elem json_loads html_fromstring cssselect decode).
Local Notation "'refresh'" :=
  (fetch_data_and_assemble_response Elem json_loads html_fromstring cssselect decode).
Local Notation "'assemble'" :=
  (assemble_and_respond Elem json_loads html_fromstring cssselect decode).

Lemma machine_eta (m : Machine) :
  m = {| cls := cls m; self := self m; ticks := ticks m; trace := trace m |}.
Proof. now destruct m. Qed.

(** The derivation of the version code, run. *)
Lemma run_version_code (w : World) (tags : list Tag) (m : Machine) :
  exists v t,
    run w (scrape_version_code decode tags) m
    = (Finished (Return v),
       {| cls := cls m; self := self m; ticks := ticks m;
          trace := (trace m ++ t)%list |})
    /\ (v = VInt (-1) \/ exists s, v = VStr s)
    /\ (t = []
        \/ exists tag rest hash,
             tags = tag :: rest /\ text tag = Some hash
             /\ t = [Fetched [fetch (gradle_request hash)]]).
Proof.
  destruct tags as [|tag rest]; simpl.
  - exists (VInt (-1)), []. rewrite app_nil_r, <- machine_eta. auto.
  - unfold try_except. rewrite run_try_with, run_bind, run_lift.
    destruct (text tag) as [hash|] eqn:Ht; cbn [str_add].
    + unfold gen_multi. cbn [bind run].
      fold (gradle_request hash). rewrite perform_one.
      destruct (answered (net w (gradle_request hash)));
        [| cbn [lift bind run]; eexists; eexists;
           (split; [reflexivity|]); (split; [eauto|]);
           right; exists tag, rest, hash; auto ].
      cbn [map lift bind run].
      rewrite run_bind, run_lift. cbn [first_item].
      repeat (rewrite run_bind, run_lift;
              match goal with
              | |- context [match ?r with Return _ => _ | Except _ => _ end] =>
                  destruct r
              end; cbv beta iota);
      cbn [run]; eexists; eexists;
        (split; [reflexivity|]); (split; [eauto|]);
        right; exists tag, rest, hash; auto.
    + cbn [run]. exists (VInt (-1)), [].
      rewrite app_nil_r, <- machine_eta. auto.
Qed.

(** X4. Deriving the version code of the GitHub release never raises
    and changes neither the class attributes nor the response: it
    yields the sentinel -1 or a string, and it sends at most one
    request, the one for the [build.gradle] of the commit hash found in
    the first matching tag; without a tag, or when the tag has no text,
    nothing is sent. *)
Theorem version_code_is_lenient (w : World) (tags : list Tag) (m : Machine) :
  exists v t,
    run w (scrape_version_code decode tags) m
    = (Finished (Return v),
       {| cls := cls m; self := self m; ticks := ticks m;
          trace := (trace m ++ t)%list |})
    /\ (v = VInt (-1) \/ exists s, v = VStr s)
    /\ (t = []
        \/ exists tag rest hash,
             tags = tag :: rest /\ text tag = Some hash
             /\ t = [Fetched [fetch (gradle_request hash)]]).
Proof. apply run_version_code. Qed.

Lemma build_data_dict (repo translations : value) (n : Z) (v1 v2 v3 : value)
    (stable : option string) (data : value) :
  build_data decode repo translations n v1 v2 v3 stable = Return data ->
  exists d, data = VDict d.
Proof.
  unfold build_data.
  repeat match goal with
  | |- context [rbind ?r _] => destruct r; cbn [rbind]; [|discriminate]
  end.
  intros [= <-]. eauto.
Qed.

Ltac lift_case H :=
  rewrite run_bind, run_lift in H;
  match type of H with
  | context [match ?r with Return _ => _ | Except _ => _ end] =>
      destruct r eqn:?; cbv beta iota in H
  end.

(** The part after the loop either raises before it stores anything or
    stores a dictionary, releases the lock and answers with it. *)
Lemma assemble_outcome (w : World) (bodies : list (option string))
    (m : Machine) (o : outcome value) (m' : Machine) :
  _lock (cls m) = held_lock ->
  self m = new_handler ->
  run w (assemble bodies) m = (o, m') ->
  exists t,
    chained t
    /\ ((exists e,
           o = Finished (Except e)
           /\ m' = {| cls := cls m; self := new_handler; ticks := ticks m;
                      trace := (trace m ++ t)%list |})
        \/ (exists d,
              o = Finished (Return VNone)
              /\ m' = {| cls := set_lock new_lock
                                (set_last_request (clock w (ticks m))
                                   (set_cached_response (Some (VDict d)) (cls m)));
                         self := served (VDict d);
                         ticks := S (ticks m);
                         trace := (trace m ++ t ++ [Released])%list |})).
Proof.
  intros Hl Hs H.
  assert (Hstop : forall e t, chained t ->
            (Finished (Except e),
             {| cls := cls m; self := self m; ticks := ticks m;
                trace := (trace m ++ t)%list |}) = (o, m') ->
            exists t,
              chained t
              /\ ((exists e,
                     o = Finished (Except e)
                     /\ m' = {| cls := cls m; self := new_handler; ticks := ticks m;
                                trace := (trace m ++ t)%list |})
                  \/ (exists d,
                        o = Finished (Return VNone)
                        /\ m' = {| cls := set_lock new_lock
                                          (set_last_request (clock w (ticks m))
                                             (set_cached_response (Some (VDict d))
                                                (cls m)));
                                   self := served (VDict d);
                                   ticks := S (ticks m);
                                   trace := (trace m ++ t ++ [Released])%list |}))).
  { intros e t Ht [= <- <-]. exists t. split; [exact Ht|]. left. exists e.
    rewrite Hs. auto. }
  assert (Hm0 : m = {| cls := cls m; self := self m; ticks := ticks m;
                       trace := (trace m ++ [])%list |}).
  { rewrite app_nil_r. apply machine_eta. }
  destruct bodies as [|b1 [|b2 [|b3 [|b4 [|b5 [|b6 bs]]]]]];
    try (cbn [assemble_and_respond run] in H; rewrite Hm0 in H;
         apply (Hstop _ [] (or_introl eq_refl) H)).
  unfold assemble_and_respond in H.
  lift_case H; [| rewrite Hm0 in H; apply (Hstop _ [] (or_introl eq_refl) H)].
  lift_case H; [| rewrite Hm0 in H; apply (Hstop _ [] (or_introl eq_refl) H)].
  rewrite run_bind in H.
  match type of H with
  | context [run w (scrape_version_code decode ?tags) m] =>
      destruct (run_version_code w tags m) as [v [t [Hv [_ Ht]]]]
  end.
  rewrite Hv in H. clear Hv.
  assert (Hc : chained t).
  { destruct Ht as [->|[tag [rest [hash [_ [_ ->]]]]]]; [now left|].
    right. now exists hash. }
  lift_case H; [| apply (Hstop _ t Hc H)].
  lift_case H; [| apply (Hstop _ t Hc H)].
  lift_case H; [| apply (Hstop _ t Hc H)].
  match goal with
  | Hb : build_data _ _ _ _ _ _ _ _ = Return ?data |- _ =>
      destruct (build_data_dict _ _ _ _ _ _ _ _ Hb) as [d ->]
  end.
  unfold update_cache, lock_release_call, add_default_headers, self_call,
    write_cls, datetime_now in H.
  cbn [bind run lift with_cls tick cls self ticks trace set_last_request
       set_cached_response _lock] in H.
  rewrite Hl, Hs in H. cbn in H.
  injection H as <- <-.
  exists t. split; [exact Hc|]. right. exists d. split; [reflexivity|].
  unfold served, with_self, emit, with_cls, tick. cbn.
  rewrite <- app_assoc. reflexivity.
Qed.

(** A request that starts with a free lock ends in one of five ways. *)
Lemma get_endings (w : World) (c : Cls) :
  _lock c = new_lock ->
  cache_ok c ->
  exists o m0 m',
    run w handler_get (start c) = (Finished o, m0)
    /\ run w (execute handler_get) (start c) = (Finished (Return tt), m')
    /\ cls m' = cls m0
    /\ ending w c o m'.
Proof.
  intros Hl Hc. rewrite run_execute.
  destruct (backoff_fires c (clock w 0)) eqn:Hb.
  { rewrite (method_rejects _ _ _ _ _ w c Hb).
    do 3 eexists. split; [reflexivity|]. split; [reflexivity|]. split; [reflexivity|]. constructor. }
  destruct (outdated c (clock w 1)) eqn:Ho.
  2:{ unfold outdated in Ho. unfold cache_ok in Hc.
      destruct (_cached_response c) as [v|] eqn:Ev; [|discriminate].
      destruct v; try contradiction.
      destruct (method_serves Elem json_loads html_fromstring cssselect decode
                  w c d Hb Ev Ho) as [h [-> [Hh Hd]]].
      do 3 eexists. split; [reflexivity|]. split; [reflexivity|]. split; [reflexivity|].
      cbn. rewrite Hh, Hd. now constructor. }
  rewrite (method_refreshes _ _ _ _ _ w c Hb Ho).
  rewrite run_bind, run_refresh by exact Hl. cbv zeta.
  destruct (all_answered w core_requests) eqn:Ha.
  2:{ do 3 eexists. split; [reflexivity|]. split; [reflexivity|]. split; [reflexivity|].
      cbn. apply (Crashed w c TransportError []). now left. }
  rewrite run_for_responses by reflexivity.
  destruct (first_error (core_responses w)) as [[r e]|] eqn:Hfe.
  - cbn. do 3 eexists. split; [reflexivity|]. split; [reflexivity|]. split; [reflexivity|].
    unfold with_self, emit, with_cls. cbn.
    replace (set_last_failed_request (Some (clock w 2))
               (set_lock new_lock (set_lock held_lock c)))
      with (set_last_failed_request (Some (clock w 2)) c)
      by (destruct c; cbn in *; subst; reflexivity).
    now apply Refused.
  - match goal with
    | |- context [run w (assemble ?bs) ?m1] =>
        destruct (run w (assemble bs) m1) as [o m'] eqn:Hrun;
        apply assemble_outcome in Hrun; [| reflexivity | reflexivity]
    end.
    destruct Hrun as [t [Ht [[e [-> ->]]|[d [-> ->]]]]].
    + cbn. do 3 eexists. split; [reflexivity|]. split; [reflexivity|]. split; [reflexivity|].
      unfold with_self, emit, with_cls. cbn.
      now apply Crashed.
    + cbn. do 3 eexists. split; [reflexivity|]. split; [reflexivity|]. split; [reflexivity|].
      unfold with_self, emit, with_cls. cbn.
      replace (set_lock new_lock
                 (set_last_request (clock w 2)
                    (set_cached_response (Some (VDict d)) (set_lock held_lock c))))
        with (set_last_request (clock w 2)
                (set_cached_response (Some (VDict d)) c))
        by (destruct c; cbn in *; subst; reflexivity).
      now apply Refreshed.
Qed.

Lemma upstream_refresh (t : list event) :
  upstream (Acquired :: Logged fetching_message
              :: Fetched (map fetch core_requests) :: t)
  = (core_requests ++ upstream t)%list.
Proof.
  reflexivity.
Qed.

Lemma upstream_chained (t : list event) :
  chained t -> upstream t = [] \/ exists hash, upstream t = [gradle_request hash].
Proof.
  intros [->|[hash ->]]; [now left|]. right. now exists hash.
Qed.


(** X6. A request sends nothing upstream, or the five requests, or the
    five requests followed by the one for [build.gradle]: never more
    than six, each of them a GET with an empty [User-Agent]. *)
Theorem at_most_six_requests (w : World) (c : Cls) :
  _lock c = new_lock ->
  cache_ok c ->
  exists m',
    run w (execute handler_get) (start c) = (Finished (Return tt), m')
    /\ (upstream (trace m') = []
        \/ upstream (trace m') = core_requests
        \/ exists hash,
             upstream (trace m') = (core_requests ++ [gradle_request hash])%list)
    /\ Forall (fun req => method req = "GET" /\ headers req = [("User-Agent", "")])
         (upstream (trace m')).
Proof.
  intros Hl Hc. destruct (get_endings w c Hl Hc) as [o [m0 [m' [_ [Hrun [_ He]]]]]].
  exists m'. split; [exact Hrun|].
  assert (Hcore : Forall (fun req => method req = "GET"
                                     /\ headers req = [("User-Agent", "")])
                    core_requests).
  { repeat constructor. }
  assert (Hsix : forall t,
            (upstream t = [] \/ exists hash, upstream t = [gradle_request hash]) ->
            (upstream (Acquired :: Logged fetching_message
                         :: Fetched (map fetch core_requests) :: t) = []
             \/ upstream (Acquired :: Logged fetching_message
                            :: Fetched (map fetch core_requests) :: t)
                = core_requests
             \/ exists hash,
                  upstream (Acquired :: Logged fetching_message
                              :: Fetched (map fetch core_requests) :: t)
                  = (core_requests ++ [gradle_request hash])%list)
            /\ Forall (fun req => method req = "GET"
                                  /\ headers req = [("User-Agent", "")])
                 (upstream (Acquired :: Logged fetching_message
                              :: Fetched (map fetch core_requests) :: t))).
  { intros t Ht. rewrite upstream_refresh.
    destruct Ht as [->|[hash ->]].
    - rewrite app_nil_r. auto.
    - split; [right; right; now exists hash|].
      apply Forall_app. split; [exact Hcore|]. repeat constructor. }
  destruct He as [|d Hd|r e Ha Hr|x t Ht|d t Ht]; cbn [trace].
  - cbn. auto.
  - cbn. auto.
  - apply (Hsix [Released; Logged (LogApiError ERROR (effective_url r) e (body r))]).
    now left.
  - now apply Hsix, upstream_chained.
  - assert (Hu : forall t', upstream (t' ++ [Released]) = upstream t').
    { intros t'. rewrite upstream_app. cbn. apply app_nil_r. }
    change (Acquired :: Logged fetching_message
              :: Fetched (map fetch core_requests) :: t ++ [Released])%list
      with ((Acquired :: Logged fetching_message
               :: Fetched (map fetch core_requests) :: t) ++ [Released])%list.
    rewrite Hu. now apply Hsix, upstream_chained.
Qed.

(** X7. The cache is never emptied: after a request it still holds a
    document when it held one before, and what it holds is a
    dictionary. *)
Theorem cache_is_never_emptied (w : World) (c : Cls) :
  _lock c = new_lock ->
  cache_ok c ->
  exists m',
    run w (execute handler_get) (start c) = (Finished (Return tt), m')
    /\ cache_ok (cls m')
    /\ (_cached_response c <> None -> _cached_response (cls m') <> None).
Proof.
  intros Hl Hc. destruct (get_endings w c Hl Hc) as [o [m0 [m' [_ [Hrun [_ He]]]]]].
  exists m'. split; [exact Hrun|].
  destruct He; cbn [cls]; unfold cache_ok; cbn; auto.
  split; [exact I|discriminate].
Qed.


(** X9. Apart from the lock, a request leaves the class attributes as
    they were, or dates a failure with the clock reading taken after
    the fetches, or stores a dictionary and dates the success with that
    reading: it never does two of these. *)
Theorem request_frame (w : World) (c : Cls) :
  _lock c = new_lock ->
  cache_ok c ->
  exists m',
    run w (execute handler_get) (start c) = (Finished (Return tt), m')
    /\ (set_lock new_lock (cls m') = c
        \/ set_lock new_lock (cls m')
           = set_last_failed_request (Some (clock w 2)) c
        \/ exists d,
             set_lock new_lock (cls m')
             = set_last_request (clock w 2)
                 (set_cached_response (Some (VDict d)) c)).
Proof.
  intros Hl Hc. destruct (get_endings w c Hl Hc) as [o [m0 [m' [_ [Hrun [_ He]]]]]].
  exists m'. split; [exact Hrun|].
  destruct He as [|d Hd|r e Ha Hr|x t Ht|d t Ht]; cbn [cls].
  - left. destruct c; cbn in *; now subst.
  - left. destruct c; cbn in *; now subst.
  - right. left. destruct c; cbn in *; now subst.
  - left. destruct c; cbn in *; now subst.
  - right. right. exists d. destruct c; cbn in *; now subst.
Qed.

(** X10. A response that carries a document carries the one that is in
    the cache when the request ends. *)
Theorem response_document_is_cached (w : World) (c : Cls) :
  _lock c = new_lock ->
  cache_ok c ->
  exists m',
    run w (execute handler_get) (start c) = (Finished (Return tt), m')
    /\ forall v, In (Json v) (_write_buffer (self m')) ->
                 _cached_response (cls m') = Some v.
Proof.
  intros Hl Hc. destruct (get_endings w c Hl Hc) as [o [m0 [m' [_ [Hrun [_ He]]]]]].
  exists m'. split; [exact Hrun|].
  destruct He as [|d Hd|r e Ha Hr|x t Ht|d t Ht]; cbn [cls self];
    intros v Hin; cbn in Hin;
    repeat match goal with
    | H : _ \/ _ |- _ => destruct H
    | H : False |- _ => destruct H
    end; try discriminate.
  - match goal with H : Json _ = Json _ |- _ => injection H as <- end.
    exact Hd.
  - match goal with H : Json _ = Json _ |- _ => injection H as <- end.
    reflexivity.
Qed.

End Endings.

(** ** One request after another *)

Section Sequences.

Variable Elem : Type.
Variable json_loads : string -> result value.
Variable html_fromstring : string -> result Elem.
Variable cssselect : Elem -> string -> list Tag.
Variable decode : string -> result string.

Local Notation "'handler_get'" :=
  (get Elem json_loads html_fromstring cssselect decode).
Local Notation "'refresh'" :=
  (fetch_data_and_assemble_response Elem json_loads html_fromstring cssselect decode).
Local Notation "'assemble'" :=
  (assemble_and_respond Elem json_loads html_fromstring cssselect decode).

(** X11. A refresh that fails on a status starts the backoff: when a
    request finds the cache outdated, its five requests are all
    answered and one of the answers has a status outside 200..299, the
    failure is dated with the clock reading taken after the fetches,
    and a request that reads the clock less than the timeout after that
    date is rejected, with the class attributes untouched and nothing
    sent. *)
Theorem failure_starts_backoff (w w2 : World) (c : Cls) :
  _lock c = new_lock ->
  backoff_fires c (clock w 0) = false ->
  outdated c (clock w 1) = true ->
  all_answered w core_requests = true ->
  first_error (core_responses w) <> None ->
  clock w2 0 - clock w 2 < _timeout ->
  let m1 := snd (run w (execute handler_get) (start c)) in
  _last_failed_request (cls m1) = Some (clock w 2)
  /\ run w2 (execute handler_get) (start (cls m1))
     = (Finished (Return tt),
        {| cls := cls m1; self := rejected_response; ticks := 1;
           trace := [Logged backoff_message] |}).
Proof.
  intros Hl Hb Ho Ha Hfe Hlt m1.
  assert (Hm1 : _last_failed_request (cls m1) = Some (clock w 2)).
  { subst m1. rewrite get_refreshes by assumption.
    unfold execute. rewrite run_try_with, !run_bind.
    rewrite run_refresh by exact Hl. cbv zeta. rewrite Ha.
    rewrite run_for_responses by reflexivity.
    destruct (first_error (core_responses w)) as [[r e]|]; [|congruence].
    reflexivity. }
  split; [exact Hm1|].
  apply get_rejects. unfold backoff_fires. rewrite Hm1.
  apply Z.ltb_lt. exact Hlt.
Qed.

(** X12. What a refresh stores is what later requests get: after a
    refresh that succeeded, a request that the backoff check lets
    through and that reads the clock at most the timeout after the
    refresh dated its success is answered with the very document the
    refresh answered with, without sending anything and without
    changing the class attributes. *)
Theorem cached_document_is_served_again (w w2 : World) (m m1 : Machine) :
  _lock (cls m) = new_lock ->
  self m = new_handler ->
  run w refresh m = (Finished (Return VNone), m1) ->
  backoff_fires (cls m1) (clock w2 0) = false ->
  clock w2 1 - clock w (ticks m) <= _timeout ->
  exists d,
    _write_buffer (self m1) = [Json (VDict d)]
    /\ run w2 (execute handler_get) (start (cls m1))
       = (Finished (Return tt),
          {| cls := cls m1; self := served (VDict d); ticks := 2; trace := [] |}).
Proof.
  intros Hl Hs H Hb Hle.
  rewrite run_refresh in H by exact Hl. cbv zeta in H.
  destruct (all_answered w core_requests); [| discriminate H].
  apply for_responses_success in H.
  apply (assemble_outcome Elem json_loads html_fromstring cssselect decode) in H;
    [| reflexivity | exact Hs].
  destruct H as [t [_ [[e [He _]]|[d [_ ->]]]]]; [discriminate He|].
  exists d. split; [reflexivity|].
  apply get_serves.
  - exact Hb.
  - reflexivity.
  - apply Z.ltb_ge. exact Hle.
Qed.

(** X13. While the lock is held, a request that finds the cache
    outdated sends nothing and gets no answer: it joins the waiters of
    the lock, after those already there. *)
Theorem stale_request_waits_for_the_lock (w : World) (c : Cls) :
  _value (_lock c) <= 0 ->
  backoff_fires c (clock w 0) = false ->
  outdated c (clock w 1) = true ->
  run w (execute handler_get) (start c)
  = (Blocked,
     {| cls := set_lock {| _value := _value (_lock c);
                           _waiters := (_waiters (_lock c) ++ [0%nat])%list |} c;
        self := new_handler; ticks := 2; trace := [] |}).
Proof.
  intros Hv Hb Ho. rewrite get_refreshes by assumption.
  unfold execute, fetch_data_and_assemble_response, lock_acquire_yield.
  cbn [bind run try_with cls]. unfold lock_acquire.
  destruct (Z.ltb_spec 0 (_value (_lock c))); [lia|]. reflexivity.
Qed.

Lemma replace_task_at_end (t : Task) (ts : list Task) :
  replace_task (List.length ts) t ts = (ts ++ [t])%list.
Proof. induction ts as [|x ts IH]; simpl; [reflexivity|now rewrite IH]. Qed.

(** X14. On the event loop, a request that arrives while another one
    holds the lock and that finds the cache outdated is parked: it
    becomes the last waiter of the lock, the journal does not grow (no
    request goes upstream), and the class attributes are otherwise
    unchanged. *)
Theorem request_during_refresh_queues (clk : nat -> Z) (s : Server) :
  _value (_lock (shared s)) <= 0 ->
  backoff_fires (shared s) (clk (readings s)) = false ->
  outdated (shared s) (clk (S (readings s))) = true ->
  exists k,
    step clk (execute handler_get) s Request
    = {| shared := set_lock
                     {| _value := _value (_lock (shared s));
                        _waiters := (_waiters (_lock (shared s))
                                     ++ [List.length (tasks s)])%list |}
                     (shared s);
         readings := S (S (readings s));
         tasks := (tasks s ++ [ {| handler := new_handler; state := AwaitLock k |} ])%list;
         journal := journal s |}.
Proof.
  intros Hv Hb Ho. unfold backoff_fires in Hb. unfold outdated in Ho.
  unfold step, settle, execute, get, datetime_now, read_cls.
  cbn [bind try_with advance read_clock shared readings]. rewrite Hb.
  unfold is_request_outdated, datetime_now, read_cls.
  cbn [bind try_with advance read_clock shared readings].
  assert (Hout : forall (p q : prog bool),
            match _cached_response (shared s) with
            | Some _ =>
                if _timeout <? clk (S (readings s)) - _last_request (shared s)
                then p else q
            | None => p
            end = p).
  { intros p q. destruct (_cached_response (shared s)); [rewrite Ho|]; reflexivity. }
  rewrite Hout. cbn [bind try_with advance].
  unfold fetch_data_and_assemble_response, lock_acquire_yield.
  cbn [bind try_with advance shared]. unfold lock_acquire.
  cbn [read_clock shared].
  destruct (Z.ltb_spec 0 (_value (_lock (shared s)))); [lia|].
  eexists.
  cbn [fst snd with_shared with_tasks read_clock tasks shared readings journal].
  rewrite replace_task_at_end. reflexivity.
Qed.

End Sequences.

(** ** The sixth fetch and the F-Droid metadata *)

Section Derived.

Variable decode : string -> result string.

(** With a commit hash at hand, the version code is what the [try]
    block makes of the body of the one response. *)
Lemma run_version_code_fetch (w : World) (tag : Tag) (rest : list Tag)
    (hash : string) (m : Machine) :
  text tag = Some hash ->
  run w (scrape_version_code decode (tag :: rest)) m
  = (Finished
       (Return (gradle_version_code decode
                  (body (response_of (gradle_request hash)
                           (net w (gradle_request hash)))))),
     emit (Fetched [fetch (gradle_request hash)]) m).
Proof.
  intros Ht. cbn [scrape_version_code]. rewrite Ht. cbn [str_add].
  unfold try_except. rewrite run_try_with.
  unfold gen_multi. cbn [lift bind run].
  fold (gradle_request hash). rewrite perform_one.
  destruct (net w (gradle_request hash)) as [status reason content landed|detail];
    cbn [answered]; [| reflexivity].
  cbn [map lift bind run first_item].
  unfold gradle_version_code.
  repeat (rewrite run_bind, run_lift;
          match goal with
          | |- context [match ?r with Return _ => _ | Except _ => _ end] =>
              destruct r
          end; cbn [rbind catch run]; try reflexivity).
Qed.

(** X15. The status of the [build.gradle] response is not looked at:
    two answers with the same body give the same version code, whatever
    their status codes. *)
Theorem gradle_status_is_ignored (w1 w2 : World) (tag : Tag) (rest : list Tag)
    (hash : string) (status1 status2 : Z) (reason1 reason2 content : string)
    (landed1 landed2 : option string) (m : Machine) :
  text tag = Some hash ->
  net w1 (gradle_request hash) = Answered status1 reason1 content landed1 ->
  net w2 (gradle_request hash) = Answered status2 reason2 content landed2 ->
  fst (run w1 (scrape_version_code decode (tag :: rest)) m)
  = fst (run w2 (scrape_version_code decode (tag :: rest)) m).
Proof.
  intros Ht H1 H2.
  rewrite !(run_version_code_fetch _ tag rest hash m Ht), H1, H2.
  reflexivity.
Qed.

(** X16. When [build.gradle] cannot be used, the version code is the
    sentinel -1: when the transport fails, when the body cannot be
    decoded, and when the decoded body holds no [versionCode]. *)
Theorem unusable_gradle_gives_sentinel (w : World) (tag : Tag) (rest : list Tag)
    (hash : string) (m : Machine) :
  text tag = Some hash ->
  (exists detail, net w (gradle_request hash) = Failed detail)
  \/ (exists status reason content landed,
        net w (gradle_request hash) = Answered status reason content landed
        /\ ((exists e, decode content = Except e)
            \/ (exists decoded,
                  decode content = Return decoded
                  /\ findall_rest "versionCode" decoded = []))) ->
  fst (run w (scrape_version_code decode (tag :: rest)) m)
  = Finished (Return (VInt (-1))).
Proof.
  intros Ht H. rewrite (run_version_code_fetch _ tag rest hash m Ht).
  cbn [fst]. do 2 f_equal. unfold gradle_version_code.
  destruct H as [[detail ->]|[status [reason [content [landed
                                [-> [[e He]|[decoded [Hd Hf]]]]]]]]];
    cbn [response_of body decode_if_bytes rbind catch re_findall].
  - reflexivity.
  - rewrite He. reflexivity.
  - rewrite Hd. cbn [rbind re_findall]. rewrite Hf. reflexivity.
Qed.

(** X17. When the decoded [build.gradle] holds a [versionCode], the
    version code is a string: the last blank-separated word of the
    rest of the first line that holds [versionCode] (all of that rest
    when it holds no blank). *)
Theorem version_code_is_last_word (w : World) (tag : Tag) (rest : list Tag)
    (hash : string) (status : Z) (reason content decoded line : string)
    (landed : option string) (more : list string) (m : Machine) :
  text tag = Some hash ->
  net w (gradle_request hash) = Answered status reason content landed ->
  decode content = Return decoded ->
  findall_rest "versionCode" decoded = line :: more ->
  exists word,
    fst (run w (scrape_version_code decode (tag :: rest)) m)
    = Finished (Return (VStr word))
    /\ ~ has_char " "%char word
    /\ (line = word \/ exists before, line = (before ++ String " "%char word)%string).
Proof.
  intros Ht Hn Hd Hf.
  destruct (split_last_field " "%char line) as [word [Hw [Hc Hl]]].
  exists word. split; [|auto].
  rewrite (run_version_code_fetch _ tag rest hash m Ht), Hn.
  cbn [fst response_of body]. unfold gradle_version_code.
  cbn [decode_if_bytes]. rewrite Hd. cbn [rbind re_findall]. rewrite Hf.
  cbn [rbind first_item]. rewrite Hw. reflexivity.
Qed.

Lemma until_newline_clean (s : string) : ~ has_char newline (until_newline s).
Proof.
  induction s as [|c r IH]; simpl; [intros []|].
  destruct (Ascii.eqb_spec c newline) as [->|Hc]; [intros []|].
  intros [H|H]; [congruence|]. now apply IH.
Qed.

Lemma findall_clean (lit s : string) (k : nat) :
  Forall (fun cap => ~ has_char newline cap) (findall_from lit s k).
Proof.
  revert k. induction s as [|c r IH]; intros k; cbn [findall_from].
  - constructor.
  - destruct k as [|k]; [|apply IH].
    destruct (String.prefix lit (String c r)); [|apply IH].
    constructor; [apply until_newline_clean|apply IH].
Qed.

Lemma last_item_in {A} (l : list A) (x : A) : last_item l = Return x -> In x l.
Proof.
  induction l as [|a l IH]; [discriminate|]. simpl.
  destruct l as [|b l]; [intros [= ->]; now left|].
  intros H. right. now apply IH.
Qed.

(** X18. Whenever [assemble_release_data] returns, it returns a
    dictionary with exactly the keys version, version_code and apk; the
    apk link is built from the very text whose integer value is the
    version code, a text without comma, and the version holds no line
    break. *)
Theorem fdroid_apk_matches_version_code (version_data : option string)
    (v : value) :
  assemble_release_data decode version_data = Return v ->
  exists version words code,
    v = VDict
          [ ("version", VStr version);
            ("version_code", VInt code);
            ("apk", VStr ("https://f-droid.org/repo/org.schabi.newpipe_"
                          ++ words ++ ".apk")%string) ]
    /\ int_of_str words = Return code
    /\ ~ has_char ","%char words
    /\ ~ has_char newline version.
Proof.
  unfold assemble_release_data. intros H.
  destruct (decode_if_bytes decode version_data) as [data|] eqn:Ed;
    cbn [rbind] in H; [|discriminate].
  destruct (re_findall "commit=" data) as [versions|] eqn:Ev;
    cbn [rbind] in H; [|discriminate].
  destruct (re_findall "Build:" data) as [codes|] eqn:Ec;
    cbn [rbind] in H; [|discriminate].
  destruct (last_item codes) as [build|] eqn:Eb; cbn [rbind] in H; [|discriminate].
  destruct (split_last_field ","%char build) as [words [Hw [Hclean _]]].
  rewrite Hw in H. cbn [rbind] in H.
  destruct (last_item versions) as [version|] eqn:El; cbn [rbind] in H;
    [|discriminate].
  destruct (int_of_str words) as [code|] eqn:Ei; cbn [rbind] in H; [|discriminate].
  injection H as <-.
  exists version, words, code. repeat split; auto.
  destruct data as [text|]; [|discriminate].
  injection Ev as <-. apply last_item_in in El.
  pose proof (findall_clean "commit=" text 0) as Hc.
  rewrite Forall_forall in Hc. now apply Hc.
Qed.

End Derived.

(** ** The further statements at the sample world *)



Lemma at_most_six_requests_witness :
  exists m',
    run Sample.healthy (execute Sample.get) (start Sample.at_startup)
    = (Finished (Return tt), m')
    /\ (upstream (trace m') = []
        \/ upstream (trace m') = core_requests
        \/ exists hash,
             upstream (trace m') = (core_requests ++ [gradle_request hash])%list)
    /\ Forall (fun req => method req = "GET" /\ headers req = [("User-Agent", "")])
         (upstream (trace m')).
Proof.
  apply (at_most_six_requests string Sample.json_loads Sample.html_fromstring
           Sample.cssselect Sample.decode Sample.healthy Sample.at_startup).
  - reflexivity.
  - exact I.
Defined.

Lemma cache_is_never_emptied_witness :
  exists m',
    run Sample.healthy (execute Sample.get) (start Sample.after_success)
    = (Finished (Return tt), m')
    /\ cache_ok (cls m')
    /\ (_cached_response Sample.after_success <> None ->
        _cached_response (cls m') <> None).
Proof.
  apply (cache_is_never_emptied string Sample.json_loads Sample.html_fromstring
           Sample.cssselect Sample.decode Sample.healthy Sample.after_success).
  - reflexivity.
  - exact I.
Defined.


Lemma request_frame_witness :
  exists m',
    run Sample.contributors_down (execute Sample.get) (start Sample.at_startup)
    = (Finished (Return tt), m')
    /\ (set_lock new_lock (cls m') = Sample.at_startup
        \/ set_lock new_lock (cls m')
           = set_last_failed_request (Some (clock Sample.contributors_down 2))
               Sample.at_startup
        \/ exists d,
             set_lock new_lock (cls m')
             = set_last_request (clock Sample.contributors_down 2)
                 (set_cached_response (Some (VDict d)) Sample.at_startup)).
Proof.
  apply (request_frame string Sample.json_loads Sample.html_fromstring
           Sample.cssselect Sample.decode Sample.contributors_down
           Sample.at_startup).
  - reflexivity.
  - exact I.
Defined.

Lemma response_document_is_cached_witness :
  exists m',
    run Sample.healthy (execute Sample.get) (start Sample.at_startup)
    = (Finished (Return tt), m')
    /\ forall v, In (Json v) (_write_buffer (self m')) ->
                 _cached_response (cls m') = Some v.
Proof.
  apply (response_document_is_cached string Sample.json_loads
           Sample.html_fromstring Sample.cssselect Sample.decode Sample.healthy
           Sample.at_startup).
  - reflexivity.
  - exact I.
Defined.

Lemma failure_starts_backoff_witness :
  let m1 := snd (run Sample.contributors_down (execute Sample.get)
                   (start Sample.at_startup)) in
  _last_failed_request (cls m1) = Some (clock Sample.contributors_down 2)
  /\ run (Scenes.later Sample.healthy) (execute Sample.get) (start (cls m1))
     = (Finished (Return tt),
        {| cls := cls m1; self := rejected_response; ticks := 1;
           trace := [Logged backoff_message] |}).
Proof.
  apply (failure_starts_backoff string Sample.json_loads Sample.html_fromstring
           Sample.cssselect Sample.decode Sample.contributors_down
           (Scenes.later Sample.healthy) Sample.at_startup).
  - reflexivity.
  - reflexivity.
  - reflexivity.
  - reflexivity.
  - vm_compute. discriminate.
  - vm_compute. reflexivity.
Defined.

Lemma cached_document_is_served_again_witness :
  exists d,
    _write_buffer
      (self (snd (run Sample.healthy Sample.fetch_data_and_assemble_response
                    (start Sample.at_startup))))
    = [Json (VDict d)]
    /\ run (Scenes.later Sample.healthy) (execute Sample.get)
         (start (cls (snd (run Sample.healthy
                             Sample.fetch_data_and_assemble_response
                             (start Sample.at_startup)))))
       = (Finished (Return tt),
          {| cls := cls (snd (run Sample.healthy
                                Sample.fetch_data_and_assemble_response
                                (start Sample.at_startup)));
             self := served (VDict d); ticks := 2; trace := [] |}).
Proof.
  apply (cached_document_is_served_again string Sample.json_loads
           Sample.html_fromstring Sample.cssselect Sample.decode Sample.healthy
           (Scenes.later Sample.healthy) (start Sample.at_startup)).
  - reflexivity.
  - reflexivity.
  - vm_compute. reflexivity.
  - vm_compute. reflexivity.
  - vm_compute. discriminate.
Defined.

Lemma stale_request_waits_for_the_lock_witness :
  run Sample.healthy (execute Sample.get) (start Scenes.busy)
  = (Blocked,
     {| cls := set_lock {| _value := 0; _waiters := [0%nat] |} Scenes.busy;
        self := new_handler; ticks := 2; trace := [] |}).
Proof.
  apply (stale_request_waits_for_the_lock string Sample.json_loads
           Sample.html_fromstring Sample.cssselect Sample.decode Sample.healthy
           Scenes.busy).
  - vm_compute. discriminate.
  - reflexivity.
  - reflexivity.
Defined.

Lemma request_during_refresh_queues_witness :
  exists k,
    step Sample.ticking (execute Sample.get) Scenes.one_in_flight Request
    = {| shared := set_lock {| _value := 0; _waiters := [1%nat] |}
                     (shared Scenes.one_in_flight);
         readings := 4;
         tasks := (tasks Scenes.one_in_flight
                   ++ [ {| handler := new_handler; state := AwaitLock k |} ])%list;
         journal := journal Scenes.one_in_flight |}.
Proof.
  apply (request_during_refresh_queues string Sample.json_loads
           Sample.html_fromstring Sample.cssselect Sample.decode Sample.ticking
           Scenes.one_in_flight).
  - vm_compute. discriminate.
  - reflexivity.
  - reflexivity.
Defined.

Lemma gradle_status_is_ignored_witness :
  fst (run Sample.healthy (scrape_version_code Sample.decode [Scenes.hash_tag])
         (start Sample.at_startup))
  = fst (run Scenes.gradle_not_found
           (scrape_version_code Sample.decode [Scenes.hash_tag])
           (start Sample.at_startup)).
Proof.
  apply (gradle_status_is_ignored Sample.decode Sample.healthy
           Scenes.gradle_not_found Scenes.hash_tag [] "0a1b2c3" 200 404
           "OK" "Not Found" "    versionCode 730" None None
           (start Sample.at_startup)).
  - reflexivity.
  - reflexivity.
  - reflexivity.
Defined.

Lemma unusable_gradle_gives_sentinel_witness :
  fst (run Sample.gradle_unreachable
         (scrape_version_code Sample.decode [Scenes.hash_tag])
         (start Sample.at_startup))
  = Finished (Return (VInt (-1))).
Proof.
  apply (unusable_gradle_gives_sentinel Sample.decode Sample.gradle_unreachable
           Scenes.hash_tag [] "0a1b2c3" (start Sample.at_startup)).
  - reflexivity.
  - left. exists "Timeout while connecting". reflexivity.
Defined.

Lemma version_code_is_last_word_witness :
  exists word,
    fst (run Sample.healthy (scrape_version_code Sample.decode [Scenes.hash_tag])
           (start Sample.at_startup))
    = Finished (Return (VStr word))
    /\ ~ has_char " "%char word
    /\ (" 730" = word \/ exists before, " 730" = (before ++ String " "%char word)%string).
Proof.
  apply (version_code_is_last_word Sample.decode Sample.healthy Scenes.hash_tag []
           "0a1b2c3" 200 "OK" "    versionCode 730" "    versionCode 730" " 730"
           None []
           (start Sample.at_startup)).
  - reflexivity.
  - reflexivity.
  - reflexivity.
  - reflexivity.
Defined.

Lemma fdroid_apk_matches_version_code_witness :
  exists version words code,
    Scenes.fdroid_stable
    = VDict
        [ ("version", VStr version);
          ("version_code", VInt code);
          ("apk", VStr ("https://f-droid.org/repo/org.schabi.newpipe_"
                        ++ words ++ ".apk")%string) ]
    /\ int_of_str words = Return code
    /\ ~ has_char ","%char words
    /\ ~ has_char newline version.
Proof.
  apply (fdroid_apk_matches_version_code Sample.decode (Some Sample.fdroid_metadata)
           Scenes.fdroid_stable).
  reflexivity.
Defined.
